(** * Release gate checker of ci/release_gates/check_gates.py

    A shallow embedding of the script: the Python values that [json.load]
    produces, the operators and built-ins the script applies to them (with
    the exceptions they raise), the four gate evaluators, the artifact
    loader and [main], followed by the properties of the release-gate
    specification. *)

From Stdlib Require Import ZArith String Ascii List Bool Lia.
From Stdlib Require Import DecimalString.
From Stdlib Require Import Floats.SpecFloat.
From stdpp Require Import base option gmap strings.

Set Warnings "-register-all".
Open Scope string_scope.
Open Scope Z_scope.

(** ** Exceptions and fallible computations *)

Module Exn.

(** The exception classes that reach this program, with the base class of
    each as Python declares it ([IOError] is an alias of [OSError]). *)
Inductive class :=
| BaseException | Exception
| AttributeError | TypeError | ValueError | ArithmeticError | RuntimeError
| ZeroDivisionError | OverflowError
| UnicodeError | UnicodeDecodeError | UnicodeEncodeError | JSONDecodeError
| OSError | FileNotFoundError | PermissionError | IsADirectoryError
| RecursionError | MemoryError.

Definition base (c : class) : option class :=
  match c with
  | BaseException => None
  | Exception => Some BaseException
  | AttributeError | TypeError | ValueError | ArithmeticError
  | RuntimeError | OSError | MemoryError => Some Exception
  | ZeroDivisionError | OverflowError => Some ArithmeticError
  | UnicodeError | JSONDecodeError => Some ValueError
  | UnicodeDecodeError | UnicodeEncodeError => Some UnicodeError
  | FileNotFoundError | PermissionError | IsADirectoryError => Some OSError
  | RecursionError => Some RuntimeError
  end.

Definition eqb (a b : class) : bool :=
  match a, b with
  | BaseException, BaseException | Exception, Exception
  | AttributeError, AttributeError | TypeError, TypeError
  | ValueError, ValueError | ArithmeticError, ArithmeticError
  | RuntimeError, RuntimeError | ZeroDivisionError, ZeroDivisionError
  | OverflowError, OverflowError | UnicodeError, UnicodeError
  | UnicodeDecodeError, UnicodeDecodeError
  | UnicodeEncodeError, UnicodeEncodeError
  | JSONDecodeError, JSONDecodeError | OSError, OSError
  | FileNotFoundError, FileNotFoundError
  | PermissionError, PermissionError
  | IsADirectoryError, IsADirectoryError
  | RecursionError, RecursionError | MemoryError, MemoryError => true
  | _, _ => false
  end.

(** [issubclass c d]: the hierarchy is four levels deep. *)
Fixpoint issubclass_upto (fuel : nat) (c d : class) : bool :=
  eqb c d ||
  match fuel with
  | O => false
  | S fuel' =>
      match base c with
      | Some c' => issubclass_upto fuel' c' d
      | None => false
      end
  end.

Definition issubclass : class -> class -> bool := issubclass_upto 4.

(** What an [except (c1, c2, ...)] clause catches. *)
Definition caught_by (handlers : list class) (c : class) : bool :=
  existsb (issubclass c) handlers.

End Exn.

(** A computation either returns or raises. *)
Inductive result (A : Type) : Type :=
| Ok (a : A)
| Raise (e : Exn.class).
Arguments Ok {A} a.
Arguments Raise {A} e.

#[export] Instance result_ret : MRet result := fun A a => Ok a.
#[export] Instance result_bind : MBind result := fun A B f m =>
  match m with
  | Ok a => f a
  | Raise e => Raise e
  end.
#[export] Instance result_fmap : FMap result := fun A B f m =>
  match m with
  | Ok a => Ok (f a)
  | Raise e => Raise e
  end.

Definition raises {A} (m : result A) : bool :=
  match m with Ok _ => false | Raise _ => true end.

(** ** Python values and numbers *)

Module Py.

(** Python floats are IEEE 754 binary64. *)
Abbreviation prec := 53 (only parsing).
Abbreviation emax := 1024 (only parsing).
Abbreviation float := spec_float (only parsing).

(** What [json.load] can return: [None], [bool], [int] (unbounded),
    [float] (with [NaN] and the infinities, which the json module reads by
    default), [str], [list] and [dict]. A dict is kept as its items in
    insertion order, with distinct keys; a str as its UTF-8 bytes. *)
Inductive value :=
| VNone
| VBool (b : bool)
| VInt (n : Z)
| VFloat (f : float)
| VStr (s : string)
| VList (l : list value)
| VDict (d : list (string * value)).

Definition is_None (v : value) : bool :=
  match v with VNone => true | _ => false end.

(** [d.get(key)] on the items of a dict. *)
Fixpoint dict_lookup (key : string) (d : list (string * value)) : option value :=
  match d with
  | [] => None
  | (k, v) :: d' => if String.eqb k key then Some v else dict_lookup key d'
  end.

(** [obj.get(key, default)]: only a dict has the method. *)
Definition py_get (obj : value) (key : string) (default : value) : result value :=
  match obj with
  | VDict d => Ok (from_option id default (dict_lookup key d))
  | _ => Raise Exn.AttributeError
  end.

(** The numbers: [bool] is a subclass of [int]; it keeps its own [str]. *)
Inductive number :=
| NBool (b : bool)
| NInt (n : Z)
| NFloat (f : float).

(** The operand check of an arithmetic or ordering operator against a
    number: anything that is not a number is a [TypeError]. *)
Definition as_number (v : value) : result number :=
  match v with
  | VBool b => Ok (NBool b)
  | VInt n => Ok (NInt n)
  | VFloat f => Ok (NFloat f)
  | _ => Raise Exn.TypeError
  end.

(** The exact value of a number: NaN, an infinity, or [m * 2^e]. *)
Inductive xreal :=
| XNaN
| XInf (neg : bool)
| XFin (m e : Z).

Definition xreal_of_float (f : float) : xreal :=
  match f with
  | S754_nan => XNaN
  | S754_infinity s => XInf s
  | S754_zero _ => XFin 0 0
  | S754_finite s m e => XFin (cond_Zopp s (Zpos m)) e
  end.

Definition xreal_of (n : number) : xreal :=
  match n with
  | NBool b => XFin (Z.b2z b) 0
  | NInt n => XFin n 0
  | NFloat f => xreal_of_float f
  end.

(** Python compares an int with a float by exact value, never by
    converting the int; a comparison with NaN has no outcome. *)
Definition xreal_compare (a b : xreal) : option comparison :=
  match a, b with
  | XNaN, _ | _, XNaN => None
  | XInf s1, XInf s2 =>
      Some (match s1, s2 with
            | true, false => Lt
            | false, true => Gt
            | _, _ => Eq
            end)
  | XInf s, XFin _ _ => Some (if s then Lt else Gt)
  | XFin _ _, XInf s => Some (if s then Gt else Lt)
  | XFin m1 e1, XFin m2 e2 =>
      let e := Z.min e1 e2 in
      Some (Z.compare (m1 * 2 ^ (e1 - e)) (m2 * 2 ^ (e2 - e)))
  end.

Definition num_compare (a b : number) : option comparison :=
  xreal_compare (xreal_of a) (xreal_of b).

Definition num_eq (a b : number) : bool :=
  match num_compare a b with Some Eq => true | _ => false end.
Definition num_lt (a b : number) : bool :=
  match num_compare a b with Some Lt => true | _ => false end.
Definition num_gt (a b : number) : bool :=
  match num_compare a b with Some Gt => true | _ => false end.
Definition num_le (a b : number) : bool :=
  match num_compare a b with Some (Lt | Eq) => true | _ => false end.

(** [v == k] for a number [k]: equality never raises; a value that is not
    a number is unequal to every number. *)
Definition py_eq_num (v : value) (k : number) : bool :=
  match as_number v with
  | Ok n => num_eq n k
  | Raise _ => false
  end.

(** [float(n)] for an int, as arithmetic with a float operand does it:
    rounded to nearest even, [OverflowError] beyond the largest float. *)
Definition float_of_int (n : Z) : result float :=
  match binary_normalize prec emax n 0 false with
  | S754_infinity _ => Raise Exn.OverflowError
  | f => Ok f
  end.

Definition to_float (n : number) : result float :=
  match n with
  | NBool b => float_of_int (Z.b2z b)
  | NInt n => float_of_int n
  | NFloat f => Ok f
  end.

Definition int_of (n : number) : option Z :=
  match n with
  | NBool b => Some (Z.b2z b)
  | NInt n => Some n
  | NFloat _ => None
  end.

(** The double nearest to [n / d] for [n, d > 0], ties to even, computed
    on the integers themselves. *)
Definition round_ratio (s : bool) (n d : Z) : float :=
  let '(q, e, l) := SFdiv_core_binary prec emax n 0 d 0 in
  binary_round_aux prec emax s q e l.

(** [a / b] on two ints: the correctly rounded quotient. *)
Definition int_true_divide (a b : Z) : result float :=
  if b =? 0 then Raise Exn.ZeroDivisionError
  else
    let s := xorb (a <? 0) (b <? 0) in
    if a =? 0 then Ok (S754_zero s)
    else
      match round_ratio s (Z.abs a) (Z.abs b) with
      | S754_infinity _ => Raise Exn.OverflowError
      | f => Ok f
      end.

Definition float_is_zero (f : float) : bool :=
  match f with S754_zero _ => true | _ => false end.

(** [a / b] on numbers: int by int is exact-then-rounded; otherwise both
    operands become floats first, and a zero divisor raises. *)
Definition num_truediv (a b : number) : result number :=
  match int_of a, int_of b with
  | Some x, Some y => NFloat <$> int_true_divide x y
  | _, _ =>
      fa ← to_float a;
      fb ← to_float b;
      if float_is_zero fb then Raise Exn.ZeroDivisionError
      else Ok (NFloat (SFdiv prec emax fa fb))
  end.

(** [a + b] on numbers: ints (and bools) add exactly to an int, anything
    with a float adds as floats. *)
Definition num_add (a b : number) : result number :=
  match int_of a, int_of b with
  | Some x, Some y => Ok (NInt (x + y))
  | _, _ =>
      fa ← to_float a;
      fb ← to_float b;
      Ok (NFloat (SFadd prec emax fa fb))
  end.

(** The float literals of the script, as the nearest doubles. *)
Definition float_0_8 : float := S754_finite false 7205759403792794 (-53).
Definition float_0_9 : float := S754_finite false 8106479329266893 (-53).
Definition float_100 : float := S754_finite false 7036874417766400 (-46).

End Py.

(** ** Rendering numbers: [str], [repr] and format specifications *)

Module Fmt.
Import Py.

Definition str_of_Z (n : Z) : string := NilZero.string_of_int (Z.to_int n).

Fixpoint zeros (n : nat) : string :=
  match n with
  | O => ""
  | S n' => String "0" (zeros n')
  end.

Definition pad_left_zeros (width : nat) (s : string) : string :=
  zeros (width - String.length s) +:+ s.

Definition sign (neg : bool) : string := if neg then "-" else "".

(** A positive finite float [m * 2^e] as a fraction of integers. *)
Definition ratio_of (m : positive) (e : Z) : Z * Z :=
  if 0 <=? e then (Zpos m * 2 ^ e, 1) else (Zpos m, 2 ^ (- e)).

(** [n / d * 10^t] as a fraction. *)
Definition scale10 (t n d : Z) : Z * Z :=
  if 0 <=? t then (n * 10 ^ t, d) else (n, d * 10 ^ (- t)).

(** The integer nearest to [n / d], ties to even. *)
Definition round_half_even (n d : Z) : Z :=
  let q := n / d in
  match Z.compare (2 * (n mod d)) d with
  | Lt => q
  | Gt => q + 1
  | Eq => if Z.even q then q else q + 1
  end.

(** The integer [N] read with its last [p] digits after the point. *)
Definition fixed_digits (p : nat) (N : Z) : string :=
  let ds := pad_left_zeros (S p) (str_of_Z N) in
  let k := (String.length ds - p)%nat in
  match p with
  | O => ds
  | _ => substring 0 k ds +:+ "." +:+ substring k p ds
  end.

(** [format(f, '.<p>f')]: the exact binary value rounded half-even to [p]
    decimals. *)
Definition format_fixed (p : nat) (f : float) : string :=
  match f with
  | S754_nan => "nan"
  | S754_infinity s => sign s +:+ "inf"
  | S754_zero s => sign s +:+ fixed_digits p 0
  | S754_finite s m e =>
      let '(n, d) := ratio_of m e in
      sign s +:+ fixed_digits p (round_half_even (n * 10 ^ Z.of_nat p) d)
  end.

(** [10^j <= n/d]. *)
Definition pow10_le (j n d : Z) : bool :=
  if 0 <=? j then 10 ^ j * d <=? n else d <=? n * 10 ^ (- j).

Fixpoint adjust_log10 (fuel : nat) (j n d : Z) : Z :=
  match fuel with
  | O => j
  | S fuel' => if pow10_le (j + 1) n d then adjust_log10 fuel' (j + 1) n d else j
  end.

(** The [j] with [10^j <= n/d < 10^(j+1)], from an estimate by bit length
    that is at most four too small. *)
Definition floor_log10 (n d : Z) : Z :=
  adjust_log10 8 ((Z.log2 n - Z.log2 d) * 30103 / 100000 - 2) n d.

(** Does the decimal [c * 10^(-t)] read back as the float [m * 2^e]? *)
Definition parses_to (m : positive) (e c t : Z) : bool :=
  let '(n, d) := scale10 (- t) c 1 in
  match round_ratio false n d with
  | S754_finite _ m' e' => Pos.eqb m m' && Z.eqb e e'
  | _ => false
  end.

(** The [k]-digit decimal that reads back as the float, if there is one:
    the nearer of the two [k]-digit neighbours that does (ties to even). *)
Definition shortest_at (k : Z) (m : positive) (e : Z) : option (Z * Z) :=
  let '(n, d) := ratio_of m e in
  let t := k - 1 - floor_log10 n d in
  let '(sn, sd) := scale10 t n d in
  let lo := sn / sd in
  let hi := lo + 1 in
  match parses_to m e lo t, parses_to m e hi t with
  | true, true =>
      Some (match Z.compare (2 * (sn mod sd)) sd with
            | Lt => lo
            | Gt => hi
            | Eq => if Z.even lo then lo else hi
            end, t)
  | true, false => Some (lo, t)
  | false, true => Some (hi, t)
  | false, false => None
  end.

(** The nearest [k]-digit decimal (ties to even). *)
Definition nearest_at (k : Z) (m : positive) (e : Z) : Z * Z :=
  let '(n, d) := ratio_of m e in
  let t := k - 1 - floor_log10 n d in
  let '(sn, sd) := scale10 t n d in
  (round_half_even sn sd, t).

(** The shortest decimal that reads back as the float, trying [k], [k+1],
    ... digits; the nearest decimal of seventeen digits always does. *)
Fixpoint shortest_from (fuel : nat) (k : Z) (m : positive) (e : Z) : Z * Z :=
  match fuel with
  | O => nearest_at 17 m e
  | S fuel' =>
      match shortest_at k m e with
      | Some ct => ct
      | None => shortest_from fuel' (k + 1) m e
      end
  end.

Fixpoint strip_zeros_rev (s : list ascii) : list ascii :=
  match s with
  | "0"%char :: s' => strip_zeros_rev s'
  | _ => s
  end.

Definition strip_trailing_zeros (s : string) : string :=
  string_of_list_ascii (rev (strip_zeros_rev (rev (list_ascii_of_string s)))).

(** [repr] lays the digits [ds] of [0.ds * 10^decpt] out in exponent form
    when [decpt] is below -3 or above 16, in positional form otherwise. *)
Definition repr_layout (ds : string) (decpt : Z) : string :=
  let nd := String.length ds in
  if (decpt <=? -4) || (16 <? decpt) then
    let ex := decpt - 1 in
    substring 0 1 ds
      +:+ (if (1 <? nd)%nat then "." +:+ substring 1 (nd - 1) ds else "")
      +:+ "e" +:+ (if ex <? 0 then "-" else "+")
      +:+ pad_left_zeros 2 (str_of_Z (Z.abs ex))
  else if decpt <=? 0 then
    "0." +:+ zeros (Z.to_nat (- decpt)) +:+ ds
  else if (Z.of_nat nd <=? decpt) then
    ds +:+ zeros (Z.to_nat decpt - nd) +:+ ".0"
  else
    substring 0 (Z.to_nat decpt) ds +:+ "."
      +:+ substring (Z.to_nat decpt) (nd - Z.to_nat decpt) ds.

(** [repr(f)], which is also [str(f)]. *)
Definition float_repr (f : float) : string :=
  match f with
  | S754_nan => "nan"
  | S754_infinity s => sign s +:+ "inf"
  | S754_zero s => sign s +:+ "0.0"
  | S754_finite s m e =>
      let '(c, t) := shortest_from 16 1 m e in
      let all := str_of_Z c in
      sign s +:+ repr_layout (strip_trailing_zeros all)
                             (Z.of_nat (String.length all) - t)
  end.

(** [str(n)], what an f-string field without a format specification
    shows. *)
Definition str (n : number) : string :=
  match n with
  | NBool true => "True"
  | NBool false => "False"
  | NInt n => str_of_Z n
  | NFloat f => float_repr f
  end.

(** [format(n, '.<p>f')]: an int is converted to a float first. *)
Definition format_f (p : nat) (n : number) : result string :=
  f ← to_float n; Ok (format_fixed p f).

(** [format(n, '.<p>%')]: the float is multiplied by 100 as a float. *)
Definition format_percent (p : nat) (n : number) : result string :=
  f ← to_float n; Ok (format_fixed p (SFmul prec emax f float_100) +:+ "%").

End Fmt.

(** ** Built-ins on containers and strings *)

Module Builtins.
Import Py.

(** A byte [10xxxxxx] continues a UTF-8 sequence. *)
Definition is_continuation (c : ascii) : bool :=
  let n := Z.of_nat (nat_of_ascii c) in (128 <=? n) && (n <? 192).

(** The characters of a str: each lead byte with its continuation bytes. *)
Fixpoint chars_from (cur : string) (s : string) : list string :=
  match s with
  | EmptyString => [cur]
  | String c s' =>
      if is_continuation c then chars_from (cur +:+ String c "") s'
      else cur :: chars_from (String c "") s'
  end.

Definition chars (s : string) : list string :=
  match s with
  | EmptyString => []
  | String c s' => chars_from (String c "") s'
  end.

(** [len(v)]: defined on list, dict and str. *)
Definition py_len (v : value) : result Z :=
  match v with
  | VList l => Ok (Z.of_nat (length l))
  | VDict d => Ok (Z.of_nat (length d))
  | VStr s => Ok (Z.of_nat (length (chars s)))
  | _ => Raise Exn.TypeError
  end.

(** [for e in v]: the items of a list, the keys of a dict, the characters
    of a str. *)
Definition py_iter (v : value) : result (list value) :=
  match v with
  | VList l => Ok l
  | VDict d => Ok (map (fun kv => VStr (fst kv)) d)
  | VStr s => Ok (map VStr (chars s))
  | _ => Raise Exn.TypeError
  end.

(** The interpreter under the script. [sum] adds ints exactly on every
    CPython, but how it accumulates floats is the interpreter's own
    business: up to 3.11 it adds them one by one, from 3.12 on it carries a
    compensation term, and the two can differ in the last bit.
    [float_sum py ns] is what [sum] returns on this interpreter for the
    numbers [ns] when a float is among them. *)
Record cpython := Cpython { float_sum : list number -> float }.

(** The items of [sum(gen)] as the sum meets them. Each item is computed
    when the sum asks for it, so the first that raises ends the sum; an
    item that is not a number is a [TypeError]. While only ints and bools
    have come, [acc] is [Some] of their exact sum; the first float needs
    that sum as a float, and from then on ([acc = None]) every int is
    turned into a float as it comes: an [OverflowError] when it is beyond
    the largest float. *)
Fixpoint sum_items (acc : option Z) (gen : list (result value))
  : result (list number) :=
  match gen with
  | [] => Ok []
  | item :: gen' =>
      v ← item;
      n ← as_number v;
      match acc, int_of n with
      | Some a, Some k =>
          ns ← sum_items (Some (a + k)) gen'; Ok (n :: ns)
      | Some a, None =>
          _ ← float_of_int a;
          ns ← sum_items None gen'; Ok (n :: ns)
      | None, _ =>
          _ ← to_float n;
          ns ← sum_items None gen'; Ok (n :: ns)
      end
  end.

(** The exact sum of numbers that are all ints or bools. *)
Fixpoint int_total (ns : list number) : option Z :=
  match ns with
  | [] => Some 0
  | n :: ns' =>
      match int_of n, int_total ns' with
      | Some k, Some t => Some (k + t)
      | _, _ => None
      end
  end.

(** [sum(gen)], from the int 0: an int when every item is an int or a
    bool, the interpreter's float sum otherwise. *)
Definition py_sum (py : cpython) (gen : list (result value)) : result number :=
  ns ← sum_items (Some 0) gen;
  Ok (match int_total ns with
      | Some t => NInt t
      | None => NFloat (float_sum py ns)
      end).

(** The double of a number that fits one. *)
Definition as_double (n : number) : float :=
  match n with
  | NBool b => binary_normalize prec emax (Z.b2z b) 0 false
  | NInt k => binary_normalize prec emax k 0 false
  | NFloat f => f
  end.

(** [a + b] on numbers that fit a float. *)
Definition plain_add (a b : number) : number :=
  match int_of a, int_of b with
  | Some x, Some y => NInt (x + y)
  | _, _ => NFloat (SFadd prec emax (as_double a) (as_double b))
  end.

(** CPython up to 3.11: every item is added to the accumulator as [+]
    does, each float addition rounded on its own. *)
Definition plain_from (acc : number) (ns : list number) : number :=
  fold_left plain_add ns acc.

Definition cpython_plain : cpython :=
  Cpython (fun ns => as_double (plain_from (NInt 0) ns)).

(** CPython 3.12 and 3.13. While the accumulator and the items are ints
    that fit a C long (64 bits) they are added exactly. From the first
    float on, a float item is added with Neumaier's compensation [c] of the
    rounding error and an int that fits a long is added to the running
    float as it is. Any other turn (an int beyond a long) folds the
    compensation in and leaves the rest to [+]. At the end the compensation
    is folded in when it is finite and not zero. *)
Definition fits_long (k : Z) : bool := (- 2 ^ 63 <=? k) && (k <? 2 ^ 63).

Definition settle (f c : float) : float :=
  match c with
  | S754_finite _ _ _ => SFadd prec emax f c
  | _ => f
  end.

Fixpoint compensated_from (f c : float) (ns : list number) : number :=
  match ns with
  | [] => NFloat (settle f c)
  | n :: ns' =>
      let add_int (k : Z) :=
        if fits_long k
        then compensated_from (SFadd prec emax f (as_double n)) c ns'
        else plain_from (NFloat (settle f c)) (n :: ns') in
      match n with
      | NFloat x =>
          let t := SFadd prec emax f x in
          let lost :=
            if SFleb (SFabs x) (SFabs f)
            then SFadd prec emax (SFsub prec emax f t) x
            else SFadd prec emax (SFsub prec emax x t) f in
          compensated_from t (SFadd prec emax c lost) ns'
      | NInt k => add_int k
      | NBool b => add_int (Z.b2z b)
      end
  end.

Fixpoint long_from (acc : Z) (ns : list number) : number :=
  match ns with
  | [] => NInt acc
  | n :: ns' =>
      match int_of n with
      | Some k =>
          if fits_long k && fits_long (acc + k) then long_from (acc + k) ns'
          else plain_from (NInt (acc + k)) ns'
      | None =>
          compensated_from (as_double (plain_add (NInt acc) n)) (S754_zero false) ns'
      end
  end.

Definition cpython_compensated : cpython :=
  Cpython (fun ns => as_double (long_from 0 ns)).

End Builtins.

(** ** [json.dumps] *)

Module Json.
Import Py Fmt Builtins.

Definition dquote : string := String (ascii_of_nat 34) "".
Definition backslash : string := String (ascii_of_nat 92) "".

(** The code point of one UTF-8 encoded character. *)
Definition code_point (ch : string) : Z :=
  match list_ascii_of_string ch with
  | [] => 0
  | c :: rest =>
      let b := Z.of_nat (nat_of_ascii c) in
      let lead :=
        if b <? 128 then b
        else if b <? 224 then Z.land b 31
        else if b <? 240 then Z.land b 15
        else Z.land b 7 in
      fold_left (fun acc c' => acc * 64 + Z.land (Z.of_nat (nat_of_ascii c')) 63)
                rest lead
  end.

Definition hex_digit (n : Z) : string :=
  substring (Z.to_nat n) 1 "0123456789abcdef".

Definition u_escape (n : Z) : string :=
  backslash +:+ "u" +:+ hex_digit (n / 4096 mod 16) +:+ hex_digit (n / 256 mod 16)
            +:+ hex_digit (n / 16 mod 16) +:+ hex_digit (n mod 16).

(** One character under [ensure_ascii]: the short escapes, then
    [\uXXXX] for everything outside [' '..'~'], as a surrogate pair above
    the basic plane. *)
Definition escape_char (ch : string) : string :=
  let n := code_point ch in
  if n =? 34 then backslash +:+ dquote
  else if n =? 92 then backslash +:+ backslash
  else if n =? 10 then backslash +:+ "n"
  else if n =? 13 then backslash +:+ "r"
  else if n =? 9 then backslash +:+ "t"
  else if n =? 8 then backslash +:+ "b"
  else if n =? 12 then backslash +:+ "f"
  else if (32 <=? n) && (n <=? 126) then ch
  else if n <? 65536 then u_escape n
  else
    let v := n - 65536 in
    u_escape (Z.lor 55296 (Z.shiftr v 10)) +:+ u_escape (Z.lor 56320 (Z.land v 1023)).

Definition encode_basestring_ascii (s : string) : string :=
  dquote +:+ String.concat "" (map escape_char (chars s)) +:+ dquote.

Definition dumps_float (f : float) : string :=
  match f with
  | S754_nan => "NaN"
  | S754_infinity false => "Infinity"
  | S754_infinity true => "-Infinity"
  | _ => float_repr f
  end.

(** [json.dumps(v)] with the default separators. *)
Fixpoint dumps (v : value) : string :=
  match v with
  | VNone => "null"
  | VBool true => "true"
  | VBool false => "false"
  | VInt n => str_of_Z n
  | VFloat f => dumps_float f
  | VStr s => encode_basestring_ascii s
  | VList l => "[" +:+ String.concat ", " (map dumps l) +:+ "]"
  | VDict d =>
      "{" +:+ String.concat ", "
                (map (fun kv => encode_basestring_ascii (fst kv) +:+ ": " +:+ dumps (snd kv)) d)
          +:+ "}"
  end.

End Json.

(** ** The gate evaluators *)

Module Gates.
Import Py Fmt Builtins.

(** A verdict: the pair [(passed, message)] an evaluator returns. *)
Definition verdict : Type := bool * string.

(** [check_integration_gate]. [total > 0] and [passed / total] first check
    that their operand is a number ([as_number]); the f-string of the
    passing branch shows [passed] and [total] with [str], and is reached
    only after both operators have accepted them. *)
Definition check_integration_gate (integration_data : value) : result verdict :=
  if is_None integration_data then
    Ok (false, "Integration test results not found")
  else
    summary ← py_get integration_data "summary" (VDict []);
    total ← py_get summary "total" (VInt 0);
    passed ← py_get summary "passed" (VInt 0);
    failed ← py_get summary "failed" (VInt 0);
    if py_eq_num total (NInt 0) then
      Ok (false, "No integration tests run")
    else
      t ← as_number total;
      pass_rate ← (if num_gt t (NInt 0)
                   then p ← as_number passed; num_truediv p t
                   else Ok (NInt 0));
      if num_lt pass_rate (NFloat float_0_8) then
        rate ← format_percent 1 pass_rate;
        Ok (false, "Integration pass rate too low: " +:+ rate +:+ " (required: 80%)")
      else
        p ← as_number passed;
        rate ← format_percent 1 pass_rate;
        Ok (true, "Integration tests passed: " +:+ str p +:+ "/" +:+ str t
                    +:+ " (" +:+ rate +:+ ")").

(** [check_performance_gate]. [latency_p95 > 1000] checks that the
    operand is a number; both messages show it with [str]. *)
Definition check_performance_gate (perf_data : value) : result verdict :=
  if is_None perf_data then
    Ok (true, "Performance data not available (optional)")
  else
    latency ← py_get perf_data "latency" (VDict []);
    latency_p50 ← py_get latency "p50" (VInt 0);
    latency' ← py_get perf_data "latency" (VDict []);
    latency_p95 ← py_get latency' "p95" (VInt 0);
    p95 ← as_number latency_p95;
    if num_gt p95 (NInt 1000) then
      Ok (false, "P95 latency too high: " +:+ str p95 +:+ "ms (threshold: 1000ms)")
    else
      Ok (true, "Performance metrics acceptable (P95: " +:+ str p95 +:+ "ms)").

(** [avg_recovery] of [check_chaos_gate]:
    [sum(e.get('recovery_time_ms', 0) for e in healing_events) / len(healing_events)]. *)
Definition avg_recovery_of (py : cpython) (healing_events : value) : result number :=
  events ← py_iter healing_events;
  total ← py_sum py (map (fun e => py_get e "recovery_time_ms" (VInt 0)) events);
  n ← py_len healing_events;
  num_truediv total (NInt n).

(** [check_chaos_gate]. The mean is always a float, shown with [.0f]. *)
Definition check_chaos_gate (py : cpython) (chaos_data : value) : result verdict :=
  if is_None chaos_data then
    Ok (true, "Chaos test data not available (optional)")
  else
    healing_events ← py_get chaos_data "healing_events" (VList []);
    n ← py_len healing_events;
    if n =? 0 then
      Ok (true, "No healing events (system stable)")
    else
      avg_recovery ← avg_recovery_of py healing_events;
      if num_gt avg_recovery (NInt 5000) then
        avg ← format_f 0 avg_recovery;
        Ok (false, "Average recovery time too high: " +:+ avg +:+ "ms (threshold: 5000ms)")
      else
        n' ← py_len healing_events;
        avg ← format_f 0 avg_recovery;
        Ok (true, "Chaos tests passed: " +:+ str (NInt n') +:+ " healing events, avg recovery: "
                    +:+ avg +:+ "ms").

(** [check_model_gate]. [accuracy < 0.9] checks that the operand is a
    number; [.1%] turns an int into a float first, which overflows for an
    int beyond the largest float. *)
Definition check_model_gate (model_data : value) : result verdict :=
  if is_None model_data then
    Ok (true, "Model validation data not available (optional)")
  else
    accuracy ← py_get model_data "accuracy" (VInt 0);
    acc ← as_number accuracy;
    if num_lt acc (NFloat float_0_9) then
      pct ← format_percent 1 acc;
      Ok (false, "Model accuracy too low: " +:+ pct +:+ " (required: 90%)")
    else
      pct ← format_percent 1 acc;
      Ok (true, "Model validation passed: accuracy " +:+ pct).

End Gates.

(** ** The file system and the standard streams *)

Module IO.
Import Py.

(** A file is known by what [open] followed by [json.load] does with it:
    it yields the parsed document, or raises an exception [e] of some class
    with some text [str(e)]. *)
Inductive file :=
| Parses (doc : value)
| Fails (c : Exn.class) (detail : string).

(** The world a run sees: the existing paths; the paths that cannot be
    created or opened for writing (with the [OSError] that reports it); the
    lines that the two streams took so far; what writing a line to standard
    output raises, if anything ([UnicodeEncodeError] when the stream's
    encoding cannot encode the line, [OSError] when the write fails);
    whether the process has written to standard output, or tried to (a
    process that starts has not); and whether what standard output still
    holds when the interpreter exits cannot be written out (a full device,
    a closed pipe). *)
Record world := World {
  files : gmap string file;
  unwritable : gmap string Exn.class;
  stdout : list string;
  stderr : list string;
  stdout_error : string -> option Exn.class;
  stdout_used : bool;
  stdout_flush_fails : bool
}.

Definition set_files (fs : gmap string file) (w : world) : world :=
  World fs (unwritable w) (stdout w) (stderr w)
        (stdout_error w) (stdout_used w) (stdout_flush_fails w).

(** Standard output after a write that took [lines] of it. *)
Definition add_stdout (lines : list string) (w : world) : world :=
  World (files w) (unwritable w) (stdout w ++ lines) (stderr w)
        (stdout_error w) true (stdout_flush_fails w).

Definition add_stderr (lines : list string) (w : world) : world :=
  World (files w) (unwritable w) (stdout w) (stderr w ++ lines)
        (stdout_error w) (stdout_used w) (stdout_flush_fails w).

(** A computation that reads and changes the world, and returns or
    raises. *)
Definition io (A : Type) : Type := world -> result A * world.

#[export] Instance io_ret : MRet io := fun A a w => (Ok a, w).
#[export] Instance io_bind : MBind io := fun A B f m w =>
  match m w with
  | (Ok a, w') => f a w'
  | (Raise e, w') => (Raise e, w')
  end.

(** A pure computation inside [io]. *)
Definition lift {A} (m : result A) : io A := fun w => (m, w).

(** [print(line)]: standard output takes the line, or the write raises
    and the line is lost. *)
Definition print (line : string) : io unit := fun w =>
  match stdout_error w line with
  | Some c => (Raise c, add_stdout [] w)
  | None => (Ok tt, add_stdout [line] w)
  end.

(** [print(line, file=sys.stderr)]; standard error escapes what it cannot
    encode. *)
Definition print_stderr (line : string) : io unit := fun w =>
  (Ok tt, add_stderr [line] w).

(** [Path(path).exists()]. *)
Definition path_exists (path : string) : io bool := fun w =>
  (Ok (bool_decide (is_Some (files w !! path))), w).

(** [with open(path, 'r') as f: json.load(f)], with the exception text
    kept for the handler. *)
Definition open_json_load (path : string) (w : world) : value + Exn.class * string :=
  match files w !! path with
  | Some (Parses doc) => inl doc
  | Some (Fails c detail) => inr (c, detail)
  | None => inr (Exn.FileNotFoundError, "[Errno 2] No such file or directory")
  end.

(** [path.parent.mkdir(parents=True, exist_ok=True)] and
    [with open(path, 'w') as f: json.dump(doc, f, indent=2)]: the file then
    holds a text that parses to [doc]. *)
Definition write_json (path : string) (doc : value) : io unit := fun w =>
  match unwritable w !! path with
  | Some c => (Raise c, w)
  | None => (Ok tt, set_files (<[path := Parses doc]> (files w)) w)
  end.

(** A [for] loop whose body only acts on the world. *)
Fixpoint for_each {A} (xs : list A) (body : A -> io unit) : io unit :=
  match xs with
  | [] => mret tt
  | x :: xs' => body x ;; for_each xs' body
  end.

End IO.

(** ** The artifact loader and [main] *)

Module Script.
Import Py Fmt Builtins Gates IO.

(** [load_json_file]. *)
Definition load_json_file (filepath : string) : io value :=
  present ← path_exists filepath;
  if negb present then mret VNone
  else fun w =>
    match open_json_load filepath w with
    | inl doc => (Ok doc, w)
    | inr (c, e) =>
        if Exn.caught_by [Exn.JSONDecodeError; Exn.OSError] c then
          (print_stderr ("Warning: Failed to load " +:+ filepath +:+ ": " +:+ e) ;;
           mret VNone) w
        else (Raise c, w)
    end.

(** The parsed command line; [--output] is required. *)
Record args := Args {
  integration : option string;
  perf : option string;
  chaos : option string;
  models : option string;
  output : string
}.

(** [load_json_file(path) if path else None]: an option that was not
    given, or given empty, is falsy. *)
Definition load_if_given (path : option string) : io value :=
  match path with
  | Some p => if String.eqb p "" then mret VNone else load_json_file p
  | None => mret VNone
  end.

(** The [gates] dict of [main], in insertion order. *)
Definition check_each (py : cpython)
    (integration_data perf_data chaos_data model_data : value)
  : result (list (string * verdict)) :=
  g_integration ← check_integration_gate integration_data;
  g_performance ← check_performance_gate perf_data;
  g_chaos ← check_chaos_gate py chaos_data;
  g_models ← check_model_gate model_data;
  Ok [("integration", g_integration); ("performance", g_performance);
      ("chaos", g_chaos); ("models", g_models)].

(** [all(passed for passed, _ in gates.values())]. *)
Definition all_passed_of (gates : list (string * verdict)) : bool :=
  forallb (fun g => fst (snd g)) gates.

(** The [result] dict of [main]. *)
Definition build_result (gates : list (string * verdict)) : value :=
  VDict [("passed", VBool (all_passed_of gates));
         ("gates", VDict (map (fun g =>
                                 (fst g, VDict [("passed", VBool (fst (snd g)));
                                                ("message", VStr (snd (snd g)))]))
                              gates));
         ("timestamp", VStr (Json.dumps (VDict [])))].

Fixpoint str_repeat (s : string) (n : nat) : string :=
  match n with
  | O => ""
  | S n' => s +:+ str_repeat s n'
  end.

Definition summary_line (g : string * verdict) : string :=
  let status := if fst (snd g) then "✅ PASS" else "❌ FAIL" in
  status +:+ " " +:+ fst g +:+ ": " +:+ snd (snd g).

(** [main], from the parsed arguments to the value it returns, on the
    interpreter [py]. *)
Definition main (py : cpython) (a : args) : io Z :=
  integration_data ← load_if_given (integration a);
  perf_data ← load_if_given (perf a);
  chaos_data ← load_if_given (chaos a);
  model_data ← load_if_given (models a);
  gates ← lift (check_each py integration_data perf_data chaos_data model_data);
  let all_passed := all_passed_of gates in
  let result := build_result gates in
  write_json (output a) result ;;
  print "Release Gate Check Results:" ;;
  print (str_repeat "=" 50) ;;
  for_each gates (fun g => print (summary_line g)) ;;
  print (str_repeat "=" 50) ;;
  print ("Overall: " +:+ (if all_passed then "✅ PASSED" else "❌ FAILED")) ;;
  mret (if all_passed then 0 else 1).

(** [sys.exit(main())]: the exit status is the value [main] returns, and
    1 when an exception leaves [main]; but when standard output was written
    to and cannot be flushed as the interpreter exits, the status is 120
    whatever [main] did. *)
Definition exit_status (py : cpython) (a : args) (w : world) : Z :=
  let '(r, w') := main py a w in
  if stdout_used w' && stdout_flush_fails w' then 120
  else match r with
       | Ok code => code
       | Raise _ => 1
       end.

End Script.

(** ** Reading a run: what it loaded and what it reported *)

Module Observe.
Import Py Builtins Gates IO Script.

(** The four artifacts of a run, loaded in the order [main] loads them. *)
Definition load_artifacts (a : args) : io (value * value * value * value) :=
  integration_data ← load_if_given (integration a);
  perf_data ← load_if_given (perf a);
  chaos_data ← load_if_given (chaos a);
  model_data ← load_if_given (models a);
  mret (integration_data, perf_data, chaos_data, model_data).

(** [main] up to and including the [json.dump] of the report: the gates
    it evaluated, once the report is on disk. *)
Definition write_report (py : cpython) (a : args) : io (list (string * verdict)) :=
  integration_data ← load_if_given (integration a);
  perf_data ← load_if_given (perf a);
  chaos_data ← load_if_given (chaos a);
  model_data ← load_if_given (models a);
  gates ← lift (check_each py integration_data perf_data chaos_data model_data);
  write_json (output a) (build_result gates) ;;
  mret gates.

(** The rest of [main]: the summary and the value returned. *)
Definition print_summary (gates : list (string * verdict)) : io Z :=
  print "Release Gate Check Results:" ;;
  print (str_repeat "=" 50) ;;
  for_each gates (fun g => print (summary_line g)) ;;
  print (str_repeat "=" 50) ;;
  print ("Overall: " +:+ (if all_passed_of gates then "✅ PASSED" else "❌ FAILED")) ;;
  mret (if all_passed_of gates then 0 else 1).

(** The exception of the first computation that raises, in list order. *)
Fixpoint first_raise {A} (rs : list (result A)) : option Exn.class :=
  match rs with
  | [] => None
  | Raise e :: _ => Some e
  | Ok _ :: rs' => first_raise rs'
  end.

(** The lines of the summary that [main] prints for [gates]. *)
Definition summary_of (gates : list (string * verdict)) : list string :=
  ["Release Gate Check Results:"; str_repeat "=" 50]
    ++ map summary_line gates
    ++ [str_repeat "=" 50;
        "Overall: " +:+ (if all_passed_of gates then "✅ PASSED" else "❌ FAILED")].

(** The report document at the output path, if the path holds one. *)
Definition report_at (path : string) (w : world) : option value :=
  match files w !! path with
  | Some (Parses doc) => Some doc
  | _ => None
  end.

Definition field (doc : value) (key : string) : option value :=
  match doc with
  | VDict d => dict_lookup key d
  | _ => None
  end.

(** The ['passed'] field of a report document. *)
Definition report_passed (doc : value) : option bool :=
  match field doc "passed" with
  | Some (VBool b) => Some b
  | _ => None
  end.

(** The ['timestamp'] field of a report document. *)
Definition report_timestamp (doc : value) : option string :=
  match field doc "timestamp" with
  | Some (VStr s) => Some s
  | _ => None
  end.

Definition verdict_of (entry : value) : option verdict :=
  match field entry "passed", field entry "message" with
  | Some (VBool b), Some (VStr m) => Some (b, m)
  | _, _ => None
  end.

Fixpoint verdicts_of (entries : list (string * value)) : option (list (string * verdict)) :=
  match entries with
  | [] => Some []
  | (name, entry) :: rest =>
      match verdict_of entry, verdicts_of rest with
      | Some v, Some vs => Some ((name, v) :: vs)
      | _, _ => None
      end
  end.

(** The gate verdicts of a report document, by gate name, in order. *)
Definition report_gates (doc : value) : option (list (string * verdict)) :=
  match field doc "gates" with
  | Some (VDict entries) => verdicts_of entries
  | _ => None
  end.

(** [needle in hay]. *)
Definition mentions (needle hay : string) : bool :=
  match String.index 0 needle hay with
  | Some _ => true
  | None => false
  end.

(** ISO 8601 date and time with a UTC designator, as the report's
    timestamp is specified: [YYYY-MM-DDTHH:MM:SS], an optional fraction of
    a second, then [Z] or an explicit offset [+HH:MM] / [-HH:MM]. *)
Definition is_digit (c : ascii) : bool :=
  let n := Z.of_nat (nat_of_ascii c) in (48 <=? n) && (n <=? 57).

Fixpoint eat_digits (n : nat) (s : list ascii) : option (list ascii) :=
  match n, s with
  | O, _ => Some s
  | S n', c :: s' => if is_digit c then eat_digits n' s' else None
  | S _, [] => None
  end.

Definition eat_char (c : ascii) (s : list ascii) : option (list ascii) :=
  match s with
  | c' :: s' => if Ascii.eqb c c' then Some s' else None
  | [] => None
  end.

Fixpoint skip_digits (s : list ascii) : list ascii :=
  match s with
  | c :: s' => if is_digit c then skip_digits s' else s
  | [] => []
  end.

Definition eat_fraction (s : list ascii) : option (list ascii) :=
  match s with
  | "."%char :: s' => skip_digits <$> eat_digits 1 s'
  | _ => Some s
  end.

Definition eat_zone (s : list ascii) : option (list ascii) :=
  match s with
  | "Z"%char :: s' => Some s'
  | ("+" | "-")%char :: s' =>
      s1 ← eat_digits 2 s'; s2 ← eat_char ":" s1; eat_digits 2 s2
  | _ => None
  end.

Definition is_iso8601_utc (s : string) : bool :=
  let parsed : option (list ascii) :=
    s1 ← eat_digits 4 (list_ascii_of_string s);
    s2 ← eat_char "-" s1; s3 ← eat_digits 2 s2;
    s4 ← eat_char "-" s3; s5 ← eat_digits 2 s4;
    s6 ← eat_char "T" s5; s7 ← eat_digits 2 s6;
    s8 ← eat_char ":" s7; s9 ← eat_digits 2 s8;
    s10 ← eat_char ":" s9; s11 ← eat_digits 2 s10;
    s12 ← eat_fraction s11;
    eat_zone s12 in
  match parsed with
  | Some [] => true
  | _ => false
  end.

(** Two worlds that differ at most in the warnings on standard error. *)
Definition same_but_stderr (w w' : world) : Prop :=
  files w' = files w /\ unwritable w' = unwritable w /\ stdout w' = stdout w
  /\ stdout_error w' = stdout_error w
  /\ stdout_used w' = stdout_used w
  /\ stdout_flush_fails w' = stdout_flush_fails w.

(** The recovery time of a healing event when it is an int: the event is
    a dict whose ['recovery_time_ms'] is an int or a bool, or is missing
    (then read as 0). *)
Definition int_recovery_time (e : value) : option Z :=
  match e with
  | VDict d =>
      match from_option id (VInt 0) (dict_lookup "recovery_time_ms" d) with
      | VInt n => Some n
      | VBool b => Some (Z.b2z b)
      | _ => None
      end
  | _ => None
  end.

Fixpoint int_recovery_times (events : list value) : option (list Z) :=
  match events with
  | [] => Some []
  | e :: rest =>
      match int_recovery_time e, int_recovery_times rest with
      | Some t, Some ts => Some (t :: ts)
      | _, _ => None
      end
  end.

Definition Zsum (ts : list Z) : Z := fold_right Z.add 0 ts.

(** Where the fraction [N / D] lies in [[m, m+1)]: at [m], below the
    middle, at the middle or above it. *)
Definition located (N D m : Z) (l : location) : Prop :=
  match l with
  | loc_Exact => N = m * D
  | loc_Inexact Lt => m * D < N /\ 2 * N < (2 * m + 1) * D
  | loc_Inexact Eq => 2 * N = (2 * m + 1) * D
  | loc_Inexact Gt => (2 * m + 1) * D < 2 * N /\ N < (m + 1) * D
  end.

End Observe.

(** ** Sample artifacts and worlds *)

Module Samples.
Import Py IO Script.

(** [{"summary": {"total": t, "passed": p, "failed": 0}}]. *)
Definition integration_of (total passed : value) : value :=
  VDict [("summary", VDict [("total", total); ("passed", passed);
                            ("failed", VInt 0)])].

(** [{"summary": 5}]: valid JSON of an unexpected shape. *)
Definition integration_odd : value := VDict [("summary", VInt 5)].

(** [{"latency": {"p50": 10, "p95": p95}}]. *)
Definition perf_of (p95 : value) : value :=
  VDict [("latency", VDict [("p50", VInt 10); ("p95", p95)])].

(** [{"healing_events": [{"recovery_time_ms": t}, ...]}]. *)
Definition chaos_of (times : list Z) : value :=
  VDict [("healing_events",
          VList (map (fun t => VDict [("recovery_time_ms", VInt t)]) times))].

(** A standard output that takes every line, and one that encodes ASCII
    only. *)
Definition takes_all (line : string) : option Exn.class := None.

Definition is_ascii (line : string) : bool :=
  forallb (fun c => (nat_of_ascii c <? 128)%nat) (list_ascii_of_string line).

Definition ascii_only (line : string) : option Exn.class :=
  if is_ascii line then None else Some Exn.UnicodeEncodeError.

(** A world with the given files, every path writable, nothing printed,
    and a standard output that takes and flushes everything. *)
Definition world_of (fs : list (string * file)) : world :=
  World (list_to_map fs) ∅ [] [] takes_all false false.

(** The same world behind a standard output that encodes ASCII only, and
    behind one that cannot be flushed. *)
Definition on_ascii_stdout (w : world) : world :=
  World (files w) (unwritable w) (stdout w) (stderr w) ascii_only
        (stdout_used w) (stdout_flush_fails w).

Definition on_full_device (w : world) : world :=
  World (files w) (unwritable w) (stdout w) (stderr w) (stdout_error w)
        (stdout_used w) true.

(** [--output gates.json] and nothing else. *)
Definition args_only_output : args := Args None None None None "gates.json".

(** [--integration integration.json --output gates.json]. *)
Definition args_integration : args :=
  Args (Some "integration.json") None None None "gates.json".

(** A file whose bytes are not UTF-8 (for instance the single byte 0xFF):
    reading it raises [UnicodeDecodeError] inside [json.load]. *)
Definition not_utf8 : file :=
  Fails Exn.UnicodeDecodeError
        "'utf-8' codec can't decode byte 0xff in position 0: invalid start byte".

(** A file that is not JSON. *)
Definition not_json : file :=
  Fails Exn.JSONDecodeError "Expecting value: line 1 column 1 (char 0)".

(** A world whose integration artifact passes, 80 of 100. *)
Definition world_passing : world :=
  world_of [("integration.json", Parses (integration_of (VInt 100) (VInt 80)))].

(** A world whose integration artifact is [{"summary": 5}]. *)
Definition world_odd : world :=
  world_of [("integration.json", Parses integration_odd)].

(** [{"latency": {"p95": "fast"}}], on which [>] raises [TypeError]; and a
    world where both the integration and the performance artifact are of
    an unexpected shape. *)
Definition perf_odd : value := perf_of (VStr "fast").

Definition args_integration_perf : args :=
  Args (Some "integration.json") (Some "perf.json") None None "gates.json".

Definition world_two_odd : world :=
  world_of [("integration.json", Parses integration_odd);
            ("perf.json", Parses perf_odd)].

(** [{"healing_events": [{"recovery_time_ms": 10**400}]}]. *)
Definition chaos_huge : value := chaos_of [10 ^ 400].

(** A world whose integration artifact is not UTF-8, and one where it is
    not JSON. *)
Definition world_not_utf8 : world := world_of [("integration.json", not_utf8)].
Definition world_not_json : world := world_of [("integration.json", not_json)].

(** The passing artifact under another path, next to a missing and a
    malformed optional artifact, with output already on the screen. *)
Definition args_other : args :=
  Args (Some "ci/it.json") (Some "ci/perf.json") None (Some "ci/models.json")
       "out/report.json".

Definition world_other : world :=
  World (list_to_map
           [("ci/it.json", Parses (integration_of (VInt 100) (VInt 80)));
            ("ci/models.json", not_json)])
        ∅ ["earlier output"] [] takes_all false false.

End Samples.

(** * Properties *)

Import Py Fmt Builtins Json Gates IO Script Observe Samples.

(** ** How a run of [main] unfolds *)

Section RunOfMain.

Lemma add_stdout_app (l1 l2 : list string) (w : world) :
  add_stdout l2 (add_stdout l1 w) = add_stdout (l1 ++ l2)%list w.
Proof. unfold add_stdout. simpl. by rewrite <- app_assoc. Qed.

Lemma print_refused (line : string) (w : world) (c : Exn.class) :
  stdout_error w line = Some c -> print line w = (Raise c, add_stdout [] w).
Proof. intros E. unfold print. by rewrite E. Qed.

Lemma print_accepted (line : string) (w : world) :
  stdout_error w line = None -> print line w = (Ok tt, add_stdout [line] w).
Proof. intros E. unfold print. by rewrite E. Qed.

(** One [print] of a sequence, on a stream that behaves as that of [w0]. *)
Ltac print_step w0 H :=
  match type of H with
  | context [print ?l ?w] =>
      let E := fresh "E" in
      destruct (stdout_error w0 l) as [?c|] eqn:E;
      [rewrite (print_refused l w _ E) in H
      |rewrite (print_accepted l w E) in H];
      cbn beta iota in H; rewrite ?add_stdout_app in H
  end.

(** A line of the summary. *)
Ltac summary_line_in :=
  unfold summary_of; repeat (rewrite in_app_iff; cbn [In]);
  auto using in_map.

(** A loop of prints puts out the lines up to the first the stream
    refuses; when it returns, all of them. *)
Lemma for_each_print {A} (line : A -> string) (xs : list A)
    (pre : list string) (w w' : world) (r : result unit) :
  for_each xs (fun x => print (line x)) (add_stdout pre w) = (r, w') ->
  exists out,
    w' = add_stdout (pre ++ out) w
    /\ (r = Ok tt -> out = map line xs)
    /\ (forall e, r = Raise e ->
          exists x, In x xs /\ stdout_error w (line x) = Some e).
Proof.
  revert pre. induction xs as [|x xs IH]; intros pre H.
  - injection H as <- <-. exists []. by rewrite app_nil_r.
  - cbn [for_each] in H. unfold mbind, io_bind in H.
    print_step w H.
    + injection H as <- <-. exists []. split; [done|]. split; [done|].
      intros e [= <-]. exists x. split; [by left|done].
    + apply IH in H as (out & -> & Hr & He).
      exists (line x :: out). rewrite <- app_assoc. split; [done|]. split.
      * intros Hok. by rewrite (Hr Hok).
      * intros e Hraise. destruct (He e Hraise) as (y & Hy & Ey).
        exists y. split; [by right|done].
Qed.

(** The summary: standard output takes the lines up to the first it
    refuses; a summary that returns has printed every line, and one that
    raises raises what the stream answered to one of its lines. *)
Lemma print_summary_run (gates : list (string * verdict)) (w w' : world)
    (r : result Z) :
  print_summary gates w = (r, w') ->
  exists out,
    w' = add_stdout out w
    /\ (forall code, r = Ok code ->
          out = summary_of gates
          /\ code = (if all_passed_of gates then 0 else 1))
    /\ (forall e, r = Raise e ->
          exists line, In line (summary_of gates)
                       /\ stdout_error w line = Some e).
Proof.
  unfold print_summary, mbind, io_bind, mret, io_ret. intros H.
  print_step w H.
  { injection H as <- <-. eexists. split; [reflexivity|]. split; [done|].
    intros e [= <-]. eexists. split; [|exact E]. summary_line_in. }
  print_step w H.
  { injection H as <- <-. eexists. split; [reflexivity|]. split; [done|].
    intros e [= <-]. eexists. split; [|exact E0]. summary_line_in. }
  destruct (for_each gates _ _) as [r1 w1] eqn:Hloop.
  apply for_each_print in Hloop as (out & -> & Hr & He).
  destruct r1 as [[]|c].
  2:{ injection H as <- <-. eexists. split; [reflexivity|]. split; [done|].
      intros e [= <-]. destruct (He c eq_refl) as (g & Hg & Eg).
      exists (summary_line g). split; [|exact Eg]. summary_line_in. }
  specialize (Hr eq_refl). subst out.
  print_step w H.
  { injection H as <- <-. eexists. split; [reflexivity|]. split; [done|].
    intros e [= <-]. eexists. split; [|exact E1]. summary_line_in. }
  print_step w H.
  { injection H as <- <-. eexists. split; [reflexivity|]. split; [done|].
    intros e [= <-]. eexists. split; [|exact E2]. summary_line_in. }
  injection H as <- <-.
  eexists. split; [reflexivity|]. split; [|done].
  intros code [= <-]. split; [|done].
  unfold summary_of. by repeat (rewrite <- app_assoc; simpl).
Qed.

(** [main] is the report followed by the summary. *)
Lemma main_split (py : cpython) (a : args) (w : world) :
  main py a w =
  match write_report py a w with
  | (Ok gates, w1) => print_summary gates w1
  | (Raise e, w1) => (Raise e, w1)
  end.
Proof.
  unfold main, write_report, print_summary, mbind, io_bind, mret, io_ret.
  destruct (load_if_given (integration a) w) as [[i|e] w1]; [|done].
  destruct (load_if_given (perf a) w1) as [[p|e] w2]; [|done].
  destruct (load_if_given (chaos a) w2) as [[c|e] w3]; [|done].
  destruct (load_if_given (models a) w3) as [[m|e] w4]; [|done].
  unfold lift. destruct (check_each py i p c m) as [gates|e]; [|done].
  by destruct (write_json (output a) (build_result gates) w4) as [[[]|e] w5].
Qed.

(** The report: the artifacts are loaded, the four gates evaluated, and
    the document built from them written to the output path. *)
Lemma write_report_run (py : cpython) (a : args) (w : world) :
  write_report py a w =
  match load_artifacts a w with
  | (Raise e, w1) => (Raise e, w1)
  | (Ok (i, p, c, m), w1) =>
      match check_each py i p c m with
      | Raise e => (Raise e, w1)
      | Ok gates =>
          match unwritable w1 !! output a with
          | Some e => (Raise e, w1)
          | None =>
              (Ok gates,
               set_files (<[output a := Parses (build_result gates)]> (files w1)) w1)
          end
      end
  end.
Proof.
  unfold write_report, load_artifacts, mbind, io_bind, mret, io_ret.
  destruct (load_if_given (integration a) w) as [[i|e] w1]; [|done].
  destruct (load_if_given (perf a) w1) as [[p|e] w2]; [|done].
  destruct (load_if_given (chaos a) w2) as [[c|e] w3]; [|done].
  destruct (load_if_given (models a) w3) as [[m|e] w4]; [|done].
  unfold lift. destruct (check_each py i p c m) as [gates|e]; [|done].
  unfold write_json. by destruct (unwritable w4 !! output a) as [e|].
Qed.

End RunOfMain.

(** ** Rounding never loses a nonzero integer *)

Section Rounding.

Lemma shr_1_m (r : shr_record) :
  0 <= shr_m r -> shr_m (shr_1 r) = shr_m r / 2.
Proof.
  destruct r as [m rb sb]. simpl. intros Hm.
  destruct m as [|p|p]; [reflexivity| |lia].
  destruct p as [p|p|]; simpl shr_m.
  - rewrite Pos2Z.inj_xI. apply Z.div_unique with 1; lia.
  - rewrite Pos2Z.inj_xO. apply Z.div_unique with 0; lia.
  - reflexivity.
Qed.

Lemma iter_shr_1_m (p : positive) (r : shr_record) :
  0 <= shr_m r -> shr_m (SpecFloat.iter_pos shr_1 p r) = shr_m r / 2 ^ Zpos p.
Proof.
  revert r. induction p as [p IH|p IH|]; intros r Hr; simpl SpecFloat.iter_pos.
  - assert (H1 : 0 <= shr_m (shr_1 r)).
    { rewrite shr_1_m by done. apply Z.div_pos; lia. }
    assert (H2 : 0 <= shr_m (SpecFloat.iter_pos shr_1 p (shr_1 r))).
    { rewrite IH by done. apply Z.div_pos; [done|]. apply Z.pow_pos_nonneg; lia. }
    rewrite IH, IH, shr_1_m by done.
    assert (Hp : 0 < 2 ^ Zpos p) by (apply Z.pow_pos_nonneg; lia).
    rewrite !Z.div_div by lia.
    f_equal. replace (Zpos p~1) with (1 + Zpos p + Zpos p) by lia.
    rewrite !Z.pow_add_r by lia. lia.
  - assert (H2 : 0 <= shr_m (SpecFloat.iter_pos shr_1 p r)).
    { rewrite IH by done. apply Z.div_pos; [done|]. apply Z.pow_pos_nonneg; lia. }
    rewrite IH, IH by done.
    assert (Hp : 0 < 2 ^ Zpos p) by (apply Z.pow_pos_nonneg; lia).
    rewrite !Z.div_div by lia.
    f_equal. replace (Zpos p~0) with (Zpos p + Zpos p) by lia.
    rewrite !Z.pow_add_r by lia. lia.
  - rewrite shr_1_m by done. reflexivity.
Qed.

Lemma digits2_pos_size (p : positive) : digits2_pos p = Pos.size p.
Proof. induction p; simpl; congruence. Qed.

Lemma digits2_lower (p : positive) : 2 ^ (Zpos (digits2_pos p) - 1) <= Zpos p.
Proof.
  rewrite digits2_pos_size.
  pose proof (Pos.size_le p) as H.
  assert (H' : 2 ^ Zpos (Pos.size p) <= 2 * Zpos p).
  { rewrite <- Pos2Z.inj_pow. apply (Pos2Z.pos_le_pos _ (p~0)). exact H. }
  replace (Zpos (Pos.size p)) with (1 + (Zpos (Pos.size p) - 1)) in H' by lia.
  rewrite Z.pow_add_r in H' by lia. lia.
Qed.

Lemma shr_record_of_loc_m (m : Z) (l : location) : shr_m (shr_record_of_loc m l) = m.
Proof. destruct l as [|[]]; reflexivity. Qed.

(** One rounding step keeps a positive mantissa positive, away from the
    subnormal range. *)
Lemma shr_fexp_pos (m e : Z) (l : location) :
  0 < m -> -1022 <= e ->
  0 < shr_m (fst (shr_fexp 53 1024 m e l)) /\ e <= snd (shr_fexp 53 1024 m e l).
Proof.
  intros Hm He. unfold shr_fexp, shr.
  destruct m as [|p|p]; [lia | | lia]. simpl Zdigits2.
  pose proof (digits2_lower p) as Hlow.
  assert (Hd : 1 <= Zpos (digits2_pos p)) by lia.
  assert (Hf : fexp 53 1024 (Zpos (digits2_pos p) + e) = Zpos (digits2_pos p) + e - 53).
  { unfold fexp, emin. lia. }
  rewrite Hf.
  destruct (Zpos (digits2_pos p) + e - 53 - e) as [|n|n] eqn:Hn; simpl fst; simpl snd.
  - rewrite shr_record_of_loc_m. lia.
  - rewrite iter_shr_1_m by (rewrite shr_record_of_loc_m; lia).
    rewrite shr_record_of_loc_m. split; [|lia].
    apply Z.div_str_pos. split; [apply Z.pow_pos_nonneg; lia|].
    etrans; [|exact Hlow]. apply Z.pow_le_mono_r; lia.
  - rewrite shr_record_of_loc_m. lia.
Qed.

Lemma round_nearest_even_ge (m : Z) (l : location) : m <= round_nearest_even m l.
Proof. destruct l as [|[]]; simpl; try destruct (Z.even m); lia. Qed.

Lemma binary_round_aux_nonzero (s : bool) (m e : Z) (l : location) :
  0 < m -> -1022 <= e ->
  float_is_zero (binary_round_aux 53 1024 s m e l) = false.
Proof.
  intros Hm He. unfold binary_round_aux.
  pose proof (shr_fexp_pos m e l Hm He) as [H1 H1e].
  destruct (shr_fexp 53 1024 m e l) as [mrs' e'] eqn:E1. simpl in H1, H1e.
  pose proof (round_nearest_even_ge (shr_m mrs') (loc_of_shr_record mrs')) as Hr.
  set (m2 := round_nearest_even (shr_m mrs') (loc_of_shr_record mrs')) in *.
  pose proof (shr_fexp_pos m2 e' loc_Exact ltac:(lia) ltac:(lia)) as [H2 _].
  destruct (shr_fexp 53 1024 m2 e' loc_Exact) as [mrs'' e''] eqn:E2. simpl in H2.
  destruct (shr_m mrs'') as [|q|q]; [lia| |lia].
  by destruct (e'' <=? 1024 - 53).
Qed.

(** [float(n)] of a nonzero int is not a zero. *)
Lemma float_of_int_nonzero (n : Z) (f : float) :
  n <> 0 -> float_of_int n = Ok f -> float_is_zero f = false.
Proof.
  intros Hn. unfold float_of_int.
  assert (H : float_is_zero (binary_normalize 53 1024 n 0 false) = false).
  { destruct n as [|p|p]; [done| |]; unfold binary_normalize, binary_round.
    all: pose proof (digits2_lower p) as Hlow.
    all: assert (Hf : -52 <= fexp 53 1024 (Zpos (digits2_pos p) + 0))
           by (unfold fexp, emin; lia).
    all: unfold shl_align.
    all: destruct (fexp 53 1024 (Zpos (digits2_pos p) + 0) - 0) eqn:Hd.
    all: apply binary_round_aux_nonzero; lia. }
  destruct (binary_normalize 53 1024 n 0 false); try done; intros [= <-]; done.
Qed.

End Rounding.

(** ** What the operators can raise *)

Section Operators.

Lemma float_of_int_raise (n : Z) (e : Exn.class) :
  float_of_int n = Raise e -> e = Exn.OverflowError.
Proof.
  unfold float_of_int.
  destruct (binary_normalize 53 1024 n 0 false); congruence.
Qed.

Lemma to_float_raise (n : number) (e : Exn.class) :
  to_float n = Raise e -> e = Exn.OverflowError.
Proof. destruct n; simpl; [apply float_of_int_raise..|discriminate]. Qed.

Lemma format_percent_raise (p : nat) (n : number) (e : Exn.class) :
  format_percent p n = Raise e -> e = Exn.OverflowError.
Proof.
  unfold format_percent, mbind, result_bind.
  destruct (to_float n) eqn:E; [discriminate|].
  intros [= <-]. by apply to_float_raise in E.
Qed.

Lemma int_true_divide_zero (a b : Z) :
  int_true_divide a b = Raise Exn.ZeroDivisionError -> b = 0.
Proof.
  unfold int_true_divide.
  destruct (b =? 0) eqn:Eb; [lia|].
  destruct (a =? 0); [discriminate|].
  destruct (round_ratio _ _ _); discriminate.
Qed.

Lemma num_gt_int_of (t : number) (y : Z) :
  num_gt t (NInt 0) = true -> int_of t = Some y -> 0 < y.
Proof.
  unfold num_gt, num_compare. destruct t as [b|n|f]; simpl; try discriminate.
  - intros H [= <-]. destruct b; [done|]. vm_compute in H. discriminate.
  - intros H [= <-]. change (match n * 1 ?= 0 with Gt => true | _ => false end = true) in H.
    rewrite Z.mul_1_r in H.
    destruct (Z.compare_spec n 0); try discriminate. lia.
Qed.

Lemma num_gt_float_nonzero (t : number) (f : float) :
  num_gt t (NInt 0) = true -> to_float t = Ok f -> float_is_zero f = false.
Proof.
  intros Hgt Hf. destruct t as [b|n|g]; simpl in Hf.
  - apply (float_of_int_nonzero (Z.b2z b)); [|done].
    pose proof (num_gt_int_of (NBool b) (Z.b2z b) Hgt eq_refl). lia.
  - apply (float_of_int_nonzero n); [|done].
    pose proof (num_gt_int_of (NInt n) n Hgt eq_refl). lia.
  - injection Hf as <-. by destruct g.
Qed.

(** Dividing by a number that compared greater than 0 never divides by
    zero. *)
Lemma num_truediv_not_zero_division (p t : number) :
  num_gt t (NInt 0) = true -> num_truediv p t <> Raise Exn.ZeroDivisionError.
Proof.
  intros Hgt. unfold num_truediv.
  assert (Hfloat : (fa ← to_float p; fb ← to_float t;
                    if float_is_zero fb then Raise Exn.ZeroDivisionError
                    else Ok (NFloat (SFdiv 53 1024 fa fb)))
                   <> Raise Exn.ZeroDivisionError).
  { unfold mbind, result_bind.
    destruct (to_float p) as [fa|e] eqn:Ea.
    - destruct (to_float t) as [fb|e] eqn:Eb.
      + by rewrite (num_gt_float_nonzero t fb Hgt Eb).
      + apply to_float_raise in Eb. congruence.
    - apply to_float_raise in Ea. congruence. }
  destruct (int_of p) as [x|] eqn:Ep; [|exact Hfloat].
  destruct (int_of t) as [y|] eqn:Et; [|exact Hfloat].
  pose proof (num_gt_int_of t y Hgt Et) as Hy.
  unfold fmap, result_fmap.
  destruct (int_true_divide x y) as [f|e] eqn:Ed; [discriminate|].
  intros [= ->]. apply int_true_divide_zero in Ed. lia.
Qed.

Lemma num_truediv_float (a b n : number) :
  num_truediv a b = Ok n -> exists f, n = NFloat f.
Proof.
  unfold num_truediv, fmap, result_fmap, mbind, result_bind.
  destruct (int_of a), (int_of b);
    repeat match goal with
           | |- context [match ?m with Ok _ => _ | Raise _ => _ end] => destruct m
           | |- context [if ?c then _ else _] => destruct c
           end; intros [= <-]; eauto.
Qed.

End Operators.

Section IntegrationGate.

Lemma check_integration_gate_not_zero_division (v : value) :
  check_integration_gate v <> Raise Exn.ZeroDivisionError.
Proof.
  unfold check_integration_gate.
  destruct (is_None v); [discriminate|].
  unfold mbind, result_bind.
  destruct (py_get v "summary" (VDict [])) as [summary|e] eqn:E1;
    [|destruct v; simpl in E1; congruence].
  destruct (py_get summary "total" (VInt 0)) as [total|e] eqn:E2;
    [|destruct summary; simpl in E2; congruence].
  destruct (py_get summary "passed" (VInt 0)) as [passed|e] eqn:E3;
    [|destruct summary; simpl in E3; congruence].
  destruct (py_get summary "failed" (VInt 0)) as [failed|e] eqn:E4;
    [|destruct summary; simpl in E4; congruence].
  destruct (py_eq_num total (NInt 0)); [discriminate|].
  destruct (as_number total) as [t|e] eqn:E5;
    [|destruct total; simpl in E5; congruence].
  destruct (num_gt t (NInt 0)) eqn:Hgt.
  - destruct (as_number passed) as [p|e] eqn:E6;
      [|destruct passed; simpl in E6; congruence].
    pose proof (num_truediv_not_zero_division p t Hgt) as Hdiv.
    destruct (num_truediv p t) as [rate|e]; [|congruence].
    destruct (num_lt rate (NFloat float_0_8)); simpl;
      destruct (format_percent 1 rate) as [s|e] eqn:E7; try discriminate;
      apply format_percent_raise in E7; congruence.
  - simpl. discriminate.
Qed.

End IntegrationGate.


(** ** Division of ints rounds to the nearest double *)

Section Nearest.

Lemma digits2_bounds (p : positive) :
  2 ^ (Zpos (digits2_pos p) - 1) <= Zpos p < 2 ^ Zpos (digits2_pos p).
Proof.
  split; [apply digits2_lower|].
  rewrite digits2_pos_size.
  pose proof (Pos.size_gt p) as H.
  rewrite <- Pos2Z.inj_pow. apply (Pos2Z.pos_lt_pos _ _ H).
Qed.

Lemma digits2_unique (q k : Z) :
  2 ^ (k - 1) <= q < 2 ^ k -> 1 <= k -> Zdigits2 q = k.
Proof.
  intros [Hlo Hhi] Hk.
  assert (Hq : 0 < q) by (pose proof (Z.pow_pos_nonneg 2 (k - 1)); lia).
  destruct q as [|p|p]; try lia. simpl.
  pose proof (digits2_bounds p) as [Hl Hu].
  set (g := Zpos (digits2_pos p)) in *.
  assert (Hg : 1 <= g) by (unfold g; lia).
  destruct (Z.lt_trichotomy g k) as [Hlt|[Heq|Hgt]]; [|done|].
  - assert (2 ^ g <= 2 ^ (k - 1)) by (apply Z.pow_le_mono_r; lia). lia.
  - assert (2 ^ k <= 2 ^ (g - 1)) by (apply Z.pow_le_mono_r; lia). lia.
Qed.

Lemma new_location_located (N d : Z) :
  0 < d -> 0 <= N -> located N d (N / d) (new_location d (N mod d)).
Proof.
  intros Hd HN.
  pose proof (Z.div_mod N d ltac:(lia)) as Hdm.
  pose proof (Z.mod_pos_bound N d Hd) as Hr.
  set (q := N / d) in *. set (r := N mod d) in *.
  unfold new_location, new_location_even, new_location_odd.
  destruct (Z.even d) eqn:Hev.
  - destruct (Z.eqb_spec r 0) as [Hr0|Hr0]; [simpl; lia|].
    destruct (Z.compare_spec (2 * r) d); simpl; lia.
  - destruct (Z.eqb_spec r 0) as [Hr0|Hr0]; [simpl; lia|].
    assert (Hodd : Z.odd d = true) by (rewrite <- Z.negb_even, Hev; done).
    apply Z.odd_spec in Hodd as [k Hk].
    destruct (Z.compare_spec (2 * r + 1) d); simpl; lia.
Qed.

Lemma loc_of_record_of_loc (m : Z) (l : location) :
  loc_of_shr_record (shr_record_of_loc m l) = l.
Proof. by destruct l as [|[]]. Qed.

Lemma shr_1_located (N D m : Z) (l : location) :
  0 < D -> 0 <= m -> located N D m l ->
  located N (2 * D) (shr_m (shr_1 (shr_record_of_loc m l)))
          (loc_of_shr_record (shr_1 (shr_record_of_loc m l))).
Proof.
  intros HD Hm Hl.
  destruct m as [|p|p]; [| |lia].
  - destruct l as [|[]]; cbn [located shr_1 shr_record_of_loc shr_m loc_of_shr_record orb] in Hl |- *.
    all: lia.
  - destruct p as [p|p|]; destruct l as [|[]];
      cbn [located shr_1 shr_record_of_loc shr_m loc_of_shr_record orb] in Hl |- *.
    all: try rewrite Pos2Z.inj_xI in Hl; try rewrite Pos2Z.inj_xO in Hl.
    all: lia.
Qed.

Lemma round_nearest_even_near (N D m : Z) (l : location) :
  0 < D -> located N D m l ->
  (2 * round_nearest_even m l - 1) * D <= 2 * N
  /\ 2 * N <= (2 * round_nearest_even m l + 1) * D
  /\ m <= round_nearest_even m l <= m + 1.
Proof.
  intros HD Hl. destruct l as [|[]]; cbn [located round_nearest_even] in Hl |- *;
    try destruct (Z.even m); lia.
Qed.

End Nearest.

Section Division.

Lemma digits2_range (n : Z) :
  0 < n < 2 ^ 53 -> 1 <= Zdigits2 n <= 53 /\ 2 ^ (Zdigits2 n - 1) <= n < 2 ^ Zdigits2 n.
Proof.
  intros [Hn Hu]. destruct n as [|p|p]; try lia. simpl Zdigits2.
  pose proof (digits2_bounds p) as [Hl Hh]. split; [|done].
  split; [lia|].
  destruct (Z_le_gt_dec (Zpos (digits2_pos p)) 53) as [|Hgt]; [done|].
  assert (2 ^ 53 <= 2 ^ (Zpos (digits2_pos p) - 1)) by (apply Z.pow_le_mono_r; lia).
  lia.
Qed.

Lemma div_core (n d : Z) :
  0 < n < 2 ^ 53 -> 0 < d < 2 ^ 53 ->
  let sft := 53 + Zdigits2 d - Zdigits2 n in
  SFdiv_core_binary 53 1024 n 0 d 0
  = (n * 2 ^ sft / d, - sft, new_location d ((n * 2 ^ sft) mod d)).
Proof.
  intros Hn Hd sft.
  pose proof (digits2_range n Hn) as [Hn1 _].
  pose proof (digits2_range d Hd) as [Hd1 _].
  unfold SFdiv_core_binary. cbv zeta.
  assert (He : Z.min (fexp 53 1024 (Zdigits2 n + 0 - (Zdigits2 d + 0))) (0 - 0) = - sft).
  { unfold fexp, emin, sft. lia. }
  rewrite He.
  replace (0 - 0 - - sft) with sft by lia.
  assert (Hs : 1 <= sft) by (unfold sft; lia).
  destruct sft as [|ps|ps] eqn:Es; try lia.
  rewrite Z.shiftl_mul_pow2 by lia.
  unfold Z.div, Z.modulo.
  by destruct (Z.div_eucl (n * 2 ^ Zpos ps) d).
Qed.

Lemma quotient_range (n d : Z) :
  0 < n < 2 ^ 53 -> 0 < d < 2 ^ 53 ->
  let sft := 53 + Zdigits2 d - Zdigits2 n in
  2 ^ 52 <= n * 2 ^ sft / d < 2 ^ 54.
Proof.
  intros Hn Hd sft.
  pose proof (digits2_range n Hn) as [Hn1 [Hnl Hnu]].
  pose proof (digits2_range d Hd) as [Hd1 [Hdl Hdu]].
  set (a := Zdigits2 n) in *. set (b := Zdigits2 d) in *.
  assert (Hs : 1 <= sft) by (unfold sft; lia).
  assert (Hp : 0 < 2 ^ sft) by (apply Z.pow_pos_nonneg; lia).
  (* n * 2^sft lies in [2^(52 + b), 2^(53 + b)) *)
  assert (Hlo : 2 ^ (52 + b) <= n * 2 ^ sft).
  { replace (52 + b) with ((a - 1) + sft) by (unfold sft; lia).
    rewrite Z.pow_add_r by lia. apply Z.mul_le_mono_nonneg_r; lia. }
  assert (Hhi : n * 2 ^ sft < 2 ^ (53 + b)).
  { replace (53 + b) with (a + sft) by (unfold sft; lia).
    rewrite Z.pow_add_r by lia. apply Z.mul_lt_mono_pos_r; lia. }
  assert (H52 : 2 ^ (52 + b) = 2 ^ 52 * 2 ^ b) by (rewrite Z.pow_add_r; lia).
  assert (H53 : 2 ^ (53 + b) = 2 ^ 54 * 2 ^ (b - 1)).
  { replace (53 + b) with (54 + (b - 1)) by lia. rewrite Z.pow_add_r; lia. }
  split.
  - apply Z.div_le_lower_bound; [lia|].
    rewrite H52 in Hlo. etrans; [|exact Hlo].
    rewrite (Z.mul_comm d). apply Z.mul_le_mono_nonneg_l; lia.
  - apply Z.div_lt_upper_bound; [lia|].
    rewrite H53 in Hhi. eapply Z.lt_le_trans; [exact Hhi|].
    rewrite (Z.mul_comm d). apply Z.mul_le_mono_nonneg_l; lia.
Qed.

End Division.

Section RoundAux.

Lemma shr_fexp_53 (m e : Z) (l : location) :
  2 ^ 52 <= m < 2 ^ 53 -> -1022 <= e ->
  shr_fexp 53 1024 m e l = (shr_record_of_loc m l, e).
Proof.
  intros Hm He. unfold shr_fexp.
  rewrite (digits2_unique m 53) by (change (53 - 1) with 52; lia).
  replace (fexp 53 1024 (53 + e) - e) with 0 by (unfold fexp, emin; lia).
  reflexivity.
Qed.

Lemma shr_fexp_54 (m e : Z) (l : location) :
  2 ^ 53 <= m < 2 ^ 54 -> -1022 <= e ->
  shr_fexp 53 1024 m e l = (shr_1 (shr_record_of_loc m l), e + 1).
Proof.
  intros Hm He. unfold shr_fexp.
  rewrite (digits2_unique m 54) by (change (54 - 1) with 53; lia).
  replace (fexp 53 1024 (54 + e) - e) with 1 by (unfold fexp, emin; lia).
  reflexivity.
Qed.

(** The second half of [binary_round_aux]: rounding a 53-bit mantissa
    with its location, and renormalising when the rounding carries. *)
Lemma round_finish (s : bool) (mrs : shr_record) (e N D : Z) :
  2 ^ 52 <= shr_m mrs < 2 ^ 53 ->
  located N D (shr_m mrs) (loc_of_shr_record mrs) ->
  0 < D -> -1022 <= e <= 900 ->
  let m2 := round_nearest_even (shr_m mrs) (loc_of_shr_record mrs) in
  (let '(mrs'', e'') := shr_fexp 53 1024 m2 e loc_Exact in
   match shr_m mrs'' with
   | Z0 => S754_zero s
   | Zpos m => if e'' <=? 1024 - 53 then S754_finite s m e'' else S754_infinity s
   | Zneg _ => S754_nan
   end)
  = (if m2 <? 2 ^ 53 then S754_finite s (Z.to_pos m2) e
     else S754_finite s (Z.to_pos (2 ^ 52)) (e + 1))
  /\ 2 ^ 52 <= m2 <= 2 ^ 53
  /\ (2 * m2 - 1) * D <= 2 * N <= (2 * m2 + 1) * D.
Proof.
  intros Hm Hl HD He m2.
  pose proof (round_nearest_even_near N D _ _ HD Hl) as (Hlo & Hhi & Hm2).
  fold m2 in Hlo, Hhi, Hm2.
  split; [|lia].
  destruct (Z.ltb_spec m2 (2 ^ 53)) as [Hlt|Hge].
  - rewrite shr_fexp_53 by lia. simpl shr_m.
    destruct m2 as [|p|p]; try lia.
    replace (e <=? 1024 - 53) with true by (symmetry; apply Z.leb_le; lia).
    reflexivity.
  - assert (Heq : m2 = 2 ^ 53) by lia. rewrite Heq.
    rewrite shr_fexp_54 by lia.
    replace (e + 1 <=? 1024 - 53) with true by (symmetry; apply Z.leb_le; lia).
    reflexivity.
Qed.

Lemma binary_round_aux_nearest (s : bool) (q e N D : Z) (l : location) :
  2 ^ 52 <= q < 2 ^ 54 -> located N D q l -> 0 < D -> -1022 <= e <= 800 ->
  exists m2 k,
    (k = 0 \/ k = 1)
    /\ 2 ^ 52 <= m2 <= 2 ^ 53
    /\ (2 * m2 - 1) * (D * 2 ^ k) <= 2 * N <= (2 * m2 + 1) * (D * 2 ^ k)
    /\ binary_round_aux 53 1024 s q e l
       = (if m2 <? 2 ^ 53 then S754_finite s (Z.to_pos m2) (e + k)
          else S754_finite s (Z.to_pos (2 ^ 52)) (e + k + 1)).
Proof.
  intros Hq Hl HD He. unfold binary_round_aux.
  destruct (Z.ltb_spec q (2 ^ 53)) as [Hlt|Hge].
  - rewrite shr_fexp_53 by lia.
    pose proof (round_finish s (shr_record_of_loc q l) e N D) as H.
    rewrite shr_record_of_loc_m, loc_of_record_of_loc in H.
    specialize (H ltac:(lia) Hl HD ltac:(lia)). cbv zeta in H.
    destruct H as (Heq & Hm2 & Hn).
    exists (round_nearest_even q l), 0.
    rewrite shr_record_of_loc_m, loc_of_record_of_loc.
    rewrite Z.add_0_r, Z.pow_0_r, Z.mul_1_r.
    split; [by left|]. split; [done|]. split; [done|]. exact Heq.
  - rewrite shr_fexp_54 by lia.
    pose proof (shr_1_located N D q l HD ltac:(lia) Hl) as Hl1.
    assert (Hm1 : 2 ^ 52 <= shr_m (shr_1 (shr_record_of_loc q l)) < 2 ^ 53).
    { rewrite shr_1_m by (rewrite shr_record_of_loc_m; lia).
      rewrite shr_record_of_loc_m.
      split; [apply Z.div_le_lower_bound; lia|apply Z.div_lt_upper_bound; lia]. }
    pose proof (round_finish s (shr_1 (shr_record_of_loc q l)) (e + 1) N (2 * D)
                  Hm1 Hl1 ltac:(lia) ltac:(lia)) as H.
    cbv zeta in H. destruct H as (Heq & Hm2 & Hn).
    eexists _, 1. split; [by right|]. split; [exact Hm2|].
    rewrite Z.pow_1_r, (Z.mul_comm D 2). split; [exact Hn|]. exact Heq.
Qed.

End RoundAux.

Section RoundRatio.

(** The quotient of two positive ints below 2^53 is a normal double
    [m * 2^(-t)] within half a unit in the last place of [n / d]. *)
Lemma round_ratio_nearest (s : bool) (n d : Z) :
  0 < n < 2 ^ 53 -> 0 < d < 2 ^ 53 ->
  exists (m : positive) (t : Z),
    round_ratio s n d = S754_finite s m (- t)
    /\ 0 <= t <= 105
    /\ 2 ^ 52 <= Zpos m < 2 ^ 53
    /\ (2 * Zpos m - 1) * d <= n * 2 ^ (t + 1) <= (2 * Zpos m + 1) * d.
Proof.
  intros Hn Hd. unfold round_ratio.
  pose proof (div_core n d Hn Hd) as Hcore.
  pose proof (quotient_range n d Hn Hd) as Hq.
  pose proof (digits2_range n Hn) as [Hn1 [Hnl Hnu]].
  pose proof (digits2_range d Hd) as [Hd1 [Hdl Hdu]].
  cbv zeta in Hcore, Hq.
  set (sft := 53 + Zdigits2 d - Zdigits2 n) in *.
  assert (Hs : 1 <= sft <= 105) by (unfold sft; lia).
  assert (Hp : 0 < 2 ^ sft) by (apply Z.pow_pos_nonneg; lia).
  rewrite Hcore.
  pose proof (new_location_located (n * 2 ^ sft) d ltac:(lia) ltac:(lia)) as Hl.
  destruct (binary_round_aux_nearest s _ (- sft) _ d _ Hq Hl ltac:(lia) ltac:(lia))
    as (m2 & k & Hk & Hm2 & [Hlo Hhi] & Heq).
  rewrite Heq.
  destruct (Z.ltb_spec m2 (2 ^ 53)) as [Hlt|Hge].
  - (* no carry *)
    exists (Z.to_pos m2), (sft - k).
    rewrite Z2Pos.id by lia.
    split; [f_equal; lia|]. split; [lia|]. split; [lia|].
    assert (H2 : 2 * (n * 2 ^ sft) = n * 2 ^ (sft - k + 1) * 2 ^ k).
    { rewrite <- Z.mul_assoc, <- Z.pow_add_r by lia.
      replace (sft - k + 1 + k) with (1 + sft) by lia.
      rewrite Z.pow_add_r by lia. lia. }
    assert (Hpk : 0 < 2 ^ k) by (apply Z.pow_pos_nonneg; lia).
    rewrite H2 in Hlo, Hhi. rewrite !Z.mul_assoc in Hlo, Hhi.
    apply Z.mul_le_mono_pos_r in Hlo; [|done].
    apply Z.mul_le_mono_pos_r in Hhi; [|done]. lia.
  - (* the rounding carried to 2^53 *)
    assert (Hm : m2 = 2 ^ 53) by lia. subst m2.
    assert (Hsk : k + 1 <= sft).
    { destruct Hk as [->| ->]; [lia|].
      destruct (Z.eq_dec sft 1) as [Hs1|]; [|lia].
      (* then d = 1 and the quotient is exact *)
      assert (Hd2 : Zdigits2 d = 1) by (unfold sft in Hs1; lia).
      rewrite Hd2 in Hdu. rewrite Hs1 in Hlo.
      assert (d = 1) by (change (2 ^ 1) with 2 in Hdu; lia). subst d.
      change (2 ^ 1) with 2 in Hlo. lia. }
    exists (Z.to_pos (2 ^ 52)), (sft - k - 1).
    split; [f_equal; lia|]. split; [lia|].
    rewrite Z2Pos.id by lia. split; [lia|].
    assert (H2 : 2 * (n * 2 ^ sft) = 2 * (n * 2 ^ (sft - k - 1 + 1)) * 2 ^ k).
    { rewrite <- !Z.mul_assoc, <- Z.pow_add_r by lia.
      replace (sft - k - 1 + 1 + k) with sft by lia. lia. }
    assert (Hpk : 0 < 2 ^ k) by (apply Z.pow_pos_nonneg; lia).
    rewrite H2 in Hlo, Hhi. rewrite !Z.mul_assoc in Hlo, Hhi.
    apply Z.mul_le_mono_pos_r in Hlo; [|done].
    apply Z.mul_le_mono_pos_r in Hhi; [|done].
    change (2 ^ 53) with (2 * 2 ^ 52) in Hlo, Hhi. lia.
Qed.

End RoundRatio.

Section Thresholds.

(** The quotient of an int sum below 2^53 in size by a count below 2^41
    is a float above 5000 exactly when the sum is above 5000 times the
    count. *)
Lemma int_true_divide_above_5000 (total n : Z) :
  - 2 ^ 53 < total < 2 ^ 53 -> 0 < n < 2 ^ 41 ->
  exists f, int_true_divide total n = Ok f
            /\ num_gt (NFloat f) (NInt 5000) = (5000 * n <? total).
Proof.
  intros Ht Hn. unfold int_true_divide.
  replace (n =? 0) with false by (symmetry; apply Z.eqb_neq; lia).
  replace (n <? 0) with false by (symmetry; apply Z.ltb_ge; lia).
  rewrite (Z.abs_eq n) by lia. cbv zeta.
  destruct (Z.eqb_spec total 0) as [->|Hne].
  { eexists. split; [reflexivity|].
    replace (5000 * n <? 0) with false by (symmetry; apply Z.ltb_ge; lia).
    reflexivity. }
  assert (Hn53 : 0 < n < 2 ^ 53) by lia.
  destruct (round_ratio_nearest (xorb (total <? 0) false) (Z.abs total) n
              ltac:(lia) Hn53) as (m & t & Heq & Ht0 & Hm & Hlo & Hhi).
  rewrite Heq. eexists. split; [reflexivity|].
  unfold num_gt, num_compare. cbn [xreal_of xreal_of_float xreal_compare].
  replace (Z.min (- t) 0) with (- t) by lia.
  replace (- t - - t) with 0 by lia. replace (0 - - t) with t by lia.
  rewrite Z.pow_0_r, Z.mul_1_r.
  assert (Hp : 0 < 2 ^ t) by (apply Z.pow_pos_nonneg; lia).
  assert (Hp1 : 2 ^ (t + 1) = 2 * 2 ^ t) by (rewrite Z.pow_add_r; lia).
  destruct (Z.ltb_spec total 0) as [Hneg|Hpos]; cbn [xorb cond_Zopp].
  - (* a negative mean is not above 5000 *)
    replace (5000 * n <? total) with false by (symmetry; apply Z.ltb_ge; lia).
    destruct (Z.compare_spec (- Zpos m) (5000 * 2 ^ t)); try reflexivity. lia.
  - rewrite Z.abs_eq in Hlo, Hhi by lia. rewrite Hp1 in Hlo, Hhi.
    destruct (Z.compare_spec (Zpos m) (5000 * 2 ^ t)) as [He|Hl|Hg];
      destruct (Z.ltb_spec (5000 * n) total) as [Hlt|Hge]; try reflexivity; exfalso.
    + (* m = 5000 * 2^t, yet the sum is above: then 2^(t+1) <= n *)
      assert (40 <= t).
      { destruct (Z_lt_le_dec t 40) as [Hs|]; [|done].
        assert (2 ^ t <= 2 ^ 39) by (apply Z.pow_le_mono_r; lia). lia. }
      assert (2 ^ 40 <= 2 ^ t) by (apply Z.pow_le_mono_r; lia).
      assert (total * 2 ^ t >= (5000 * n + 1) * 2 ^ t) by nia. nia.
    + assert (40 <= t).
      { destruct (Z_lt_le_dec t 40) as [Hs|]; [|done].
        assert (2 ^ t <= 2 ^ 39) by (apply Z.pow_le_mono_r; lia). lia. }
      assert (2 ^ 40 <= 2 ^ t) by (apply Z.pow_le_mono_r; lia).
      assert (total * 2 ^ t >= (5000 * n + 1) * 2 ^ t) by nia. nia.
    + (* m above 5000 * 2^t, yet the sum is not *)
      assert (total * 2 ^ t <= 5000 * n * 2 ^ t) by nia. nia.
Qed.

End Thresholds.

(** ** The loader and the report *)

Section Loader.

(** What [load_json_file] does with each kind of path. *)
Lemma load_json_file_missing (path : string) (w : world) :
  files w !! path = None -> load_json_file path w = (Ok VNone, w).
Proof.
  intros H. unfold load_json_file, mbind, io_bind, path_exists. rewrite H.
  rewrite bool_decide_eq_false_2; [done|]. by intros [? ?].
Qed.

Lemma load_json_file_parses (path : string) (w : world) (doc : value) :
  files w !! path = Some (Parses doc) -> load_json_file path w = (Ok doc, w).
Proof.
  intros H. unfold load_json_file, mbind, io_bind, path_exists.
  rewrite bool_decide_eq_true_2 by (rewrite H; by eexists).
  cbn beta iota delta [negb]. unfold open_json_load. by rewrite H.
Qed.

Lemma load_json_file_fails (path : string) (w : world) (c : Exn.class) (e : string) :
  files w !! path = Some (Fails c e) ->
  load_json_file path w =
  if Exn.caught_by [Exn.JSONDecodeError; Exn.OSError] c then
    (Ok VNone,
     add_stderr ["Warning: Failed to load " +:+ path +:+ ": " +:+ e] w)
  else (Raise c, w).
Proof.
  intros H. unfold load_json_file, mbind, io_bind, path_exists.
  rewrite bool_decide_eq_true_2 by (rewrite H; by eexists).
  cbn beta iota delta [negb]. unfold open_json_load. rewrite H.
  by destruct (Exn.caught_by _ c).
Qed.

(** Loading only ever adds warnings. *)
Lemma load_json_file_frame (path : string) (w : world) :
  same_but_stderr w (snd (load_json_file path w)).
Proof.
  destruct (files w !! path) as [[doc|c e]|] eqn:H.
  - by rewrite (load_json_file_parses _ _ _ H).
  - rewrite (load_json_file_fails _ _ _ _ H).
    by destruct (Exn.caught_by _ c).
  - by rewrite (load_json_file_missing _ _ H).
Qed.

Lemma load_if_given_frame (path : option string) (w : world) :
  same_but_stderr w (snd (load_if_given path w)).
Proof.
  destruct path as [p|]; simpl; [|done].
  destruct (String.eqb p ""); [done|]. apply load_json_file_frame.
Qed.

Lemma same_but_stderr_trans (w1 w2 w3 : world) :
  same_but_stderr w1 w2 -> same_but_stderr w2 w3 -> same_but_stderr w1 w3.
Proof.
  unfold same_but_stderr. intros (?&?&?&?&?&?) (?&?&?&?&?&?).
  repeat split; congruence.
Qed.

Lemma load_artifacts_frame (a : args) (w : world) :
  same_but_stderr w (snd (load_artifacts a w)).
Proof.
  unfold load_artifacts, mbind, io_bind, mret, io_ret.
  pose proof (load_if_given_frame (integration a) w) as H1.
  destruct (load_if_given (integration a) w) as [[i|e] w1]; [|done].
  pose proof (load_if_given_frame (perf a) w1) as H2.
  destruct (load_if_given (perf a) w1) as [[p|e] w2];
    [|by eapply same_but_stderr_trans].
  pose proof (load_if_given_frame (chaos a) w2) as H3.
  destruct (load_if_given (chaos a) w2) as [[c|e] w3];
    [|by repeat (eapply same_but_stderr_trans; [eassumption|])].
  pose proof (load_if_given_frame (models a) w3) as H4.
  destruct (load_if_given (models a) w3) as [[m|e] w4]; simpl in *;
    repeat (eapply same_but_stderr_trans; [eassumption|]); done.
Qed.

End Loader.

Section Report.

Lemma verdicts_of_entries (gates : list (string * verdict)) :
  verdicts_of
    (map (fun g => (fst g, VDict [("passed", VBool (fst (snd g)));
                                  ("message", VStr (snd (snd g)))])) gates)
  = Some gates.
Proof.
  induction gates as [|[name [b m]] gates IH]; [done|].
  simpl. simpl in IH. by rewrite IH.
Qed.

Lemma report_gates_build (gates : list (string * verdict)) :
  report_gates (build_result gates) = Some gates.
Proof. unfold report_gates, build_result. simpl. apply verdicts_of_entries. Qed.

Lemma report_passed_build (gates : list (string * verdict)) :
  report_passed (build_result gates) = Some (all_passed_of gates).
Proof. reflexivity. Qed.

Lemma report_timestamp_build (gates : list (string * verdict)) :
  report_timestamp (build_result gates) = Some "{}".
Proof. reflexivity. Qed.

(** The evaluators run in the order of the [gates] dict: the first that
    raises decides, and when none raises the dict holds the four verdicts
    under their names. *)
Lemma check_each_outcome (py : cpython) (i p c m : value) :
  match first_raise [check_integration_gate i; check_performance_gate p;
                     check_chaos_gate py c; check_model_gate m] with
  | Some e => check_each py i p c m = Raise e
  | None =>
      exists gi gp gc gm,
        check_integration_gate i = Ok gi
        /\ check_performance_gate p = Ok gp
        /\ check_chaos_gate py c = Ok gc
        /\ check_model_gate m = Ok gm
        /\ check_each py i p c m
           = Ok [("integration", gi); ("performance", gp);
                 ("chaos", gc); ("models", gm)]
  end.
Proof.
  unfold check_each, mbind, result_bind. cbn [first_raise].
  destruct (check_integration_gate i) as [gi|]; [|done].
  destruct (check_performance_gate p) as [gp|]; [|done].
  destruct (check_chaos_gate py c) as [gc|]; [|done].
  destruct (check_model_gate m) as [gm|]; [|done].
  by exists gi, gp, gc, gm.
Qed.

Lemma check_each_names (py : cpython) (i p c m : value)
    (gates : list (string * verdict)) :
  check_each py i p c m = Ok gates ->
  map fst gates = ["integration"; "performance"; "chaos"; "models"].
Proof.
  unfold check_each, mbind, result_bind.
  destruct (check_integration_gate i); [|done].
  destruct (check_performance_gate p); [|done].
  destruct (check_chaos_gate py c); [|done].
  destruct (check_model_gate m); [|done].
  by intros [= <-].
Qed.

(** Once the report is written it stays: the summary only prints, so the
    world [main] ends in holds the report, whether the summary was printed
    or a print raised. *)
Lemma report_written (py : cpython) (a : args) (w w1 : world)
    (gates : list (string * verdict)) :
  write_report py a w = (Ok gates, w1) ->
  exists i p c m w0 out,
    load_artifacts a w = (Ok (i, p, c, m), w0)
    /\ check_each py i p c m = Ok gates
    /\ report_at (output a) (snd (main py a w)) = Some (build_result gates)
    /\ snd (main py a w) = add_stdout out w1
    /\ stdout w1 = stdout w
    /\ stdout_error w1 = stdout_error w
    /\ stdout_flush_fails w1 = stdout_flush_fails w
    /\ (forall code, fst (main py a w) = Ok code ->
          out = summary_of gates
          /\ code = (if all_passed_of gates then 0 else 1))
    /\ (forall e, fst (main py a w) = Raise e ->
          exists line, In line (summary_of gates)
                       /\ stdout_error w line = Some e).
Proof.
  intros Hw. rewrite main_split, Hw. rewrite write_report_run in Hw.
  pose proof (load_artifacts_frame a w) as (_ & _ & Ho & He & _ & Hf).
  destruct (load_artifacts a w) as [[[[[i p] c] m]|e] w0]; [|done].
  destruct (check_each py i p c m) as [gates'|e] eqn:Hg; [|done].
  destruct (unwritable w0 !! output a); [done|].
  injection Hw as <- <-.
  destruct (print_summary _ _) as [r w'] eqn:Hp.
  apply print_summary_run in Hp as (out & -> & Hret & Hraise).
  exists i, p, c, m, w0, out.
  repeat split; try done.
  - unfold report_at. simpl. by rewrite lookup_insert_eq.
  - by apply (Hret code).
  - by apply (Hret code).
  - intros e Hr. destruct (Hraise e Hr) as (line & Hin & El).
    exists line. split; [done|]. simpl in He, El. by rewrite <- He.
Qed.

(** A run that returns has written its report. *)
Lemma main_returns (py : cpython) (a : args) (w w' : world) (code : Z) :
  main py a w = (Ok code, w') ->
  exists gates w1, write_report py a w = (Ok gates, w1).
Proof.
  rewrite main_split.
  destruct (write_report py a w) as [[gates|e] w1]; [|done].
  intros _. by exists gates, w1.
Qed.

End Report.

(** ** The boundary cases of the specification, evaluated *)

Section Boundaries.

Example integration_80_of_100 :
  check_integration_gate (integration_of (VInt 100) (VInt 80))
  = Ok (true, "Integration tests passed: 80/100 (80.0%)").
Proof. vm_compute. reflexivity. Qed.

Example integration_79_of_100 :
  check_integration_gate (integration_of (VInt 100) (VInt 79))
  = Ok (false, "Integration pass rate too low: 79.0% (required: 80%)").
Proof. vm_compute. reflexivity. Qed.

Example integration_5_of_6 :
  check_integration_gate (integration_of (VInt 6) (VInt 5))
  = Ok (true, "Integration tests passed: 5/6 (83.3%)").
Proof. vm_compute. reflexivity. Qed.

Example integration_absent :
  check_integration_gate VNone = Ok (false, "Integration test results not found").
Proof. reflexivity. Qed.

Example performance_1000 :
  check_performance_gate (perf_of (VInt 1000))
  = Ok (true, "Performance metrics acceptable (P95: 1000ms)").
Proof. vm_compute. reflexivity. Qed.

Example performance_1001 :
  check_performance_gate (perf_of (VInt 1001))
  = Ok (false, "P95 latency too high: 1001ms (threshold: 1000ms)").
Proof. vm_compute. reflexivity. Qed.

Example chaos_mean_5001 (py : cpython) :
  check_chaos_gate py (chaos_of [5001])
  = Ok (false, "Average recovery time too high: 5001ms (threshold: 5000ms)").
Proof. vm_compute. reflexivity. Qed.

Example chaos_mean_5000 (py : cpython) :
  check_chaos_gate py (chaos_of [4000; 6000])
  = Ok (true, "Chaos tests passed: 2 healing events, avg recovery: 5000ms").
Proof. vm_compute. reflexivity. Qed.

(** With float recovery times the sum is the interpreter's. For 15000.0,
    2^-40 and 2^-40 the plain sum stays at 15000.0 and the gate passes; the
    compensated sum is 15000.000000000002, the mean is above 5000 and the
    gate fails. *)
Example chaos_float_sum_is_the_interpreters :
  let events :=
    VDict [("healing_events",
            VList [VDict [("recovery_time_ms",
                           VFloat (S754_finite false 8246337208320000 (-39)))];
                   VDict [("recovery_time_ms",
                           VFloat (S754_finite false 4503599627370496 (-92)))];
                   VDict [("recovery_time_ms",
                           VFloat (S754_finite false 4503599627370496 (-92)))]])] in
  check_chaos_gate cpython_plain events
  = Ok (true, "Chaos tests passed: 3 healing events, avg recovery: 5000ms")
  /\ check_chaos_gate cpython_compensated events
     = Ok (false, "Average recovery time too high: 5000ms (threshold: 5000ms)").
Proof. vm_compute. split; reflexivity. Qed.

Example model_0_90 :
  check_model_gate (VDict [("accuracy", VFloat float_0_9)])
  = Ok (true, "Model validation passed: accuracy 90.0%").
Proof. vm_compute. reflexivity. Qed.

(** 0.899 is the double 8097472130012152 * 2^-53. *)
Example model_0_899 :
  check_model_gate (VDict [("accuracy", VFloat (S754_finite false 8097472130012152 (-53)))])
  = Ok (false, "Model accuracy too low: 89.9% (required: 90%)").
Proof. vm_compute. reflexivity. Qed.

Example literals_are_nearest_doubles :
  int_true_divide 8 10 = Ok float_0_8
  /\ int_true_divide 9 10 = Ok float_0_9
  /\ float_of_int 100 = Ok float_100.
Proof. vm_compute. repeat split; reflexivity. Qed.

Example timestamp_format_accepts :
  is_iso8601_utc "2024-05-01T12:00:00Z" = true
  /\ is_iso8601_utc "2024-05-01T12:00:00.123456+00:00" = true
  /\ is_iso8601_utc "2024-05-01 12:00:00" = false.
Proof. vm_compute. repeat split; reflexivity. Qed.

End Boundaries.

(** ** The aggregator *)

Section Aggregator.

(** C3. In every run that writes its report, the report's ['passed'] field
    is the conjunction of the ['passed'] flags of the gate verdicts in that
    same report, and the report holds exactly the four configured gates;
    this is the report the run leaves behind, whether or not the summary
    could be printed afterwards. *)
Theorem overall_passed_is_conjunction
    (py : cpython) (a : args) (w w1 : world) (written : list (string * verdict))
    (Hrun : write_report py a w = (Ok written, w1)) :
  exists doc overall gates,
    report_at (output a) (snd (main py a w)) = Some doc
    /\ report_passed doc = Some overall
    /\ report_gates doc = Some gates
    /\ map fst gates = ["integration"; "performance"; "chaos"; "models"]
    /\ overall = forallb (fun g => fst (snd g)) gates.
Proof.
  apply report_written in Hrun as (i & p & c & m & w0 & out & _ & Hg & Hdoc & _).
  exists (build_result written), (all_passed_of written), written.
  split; [done|]. split; [apply report_passed_build|].
  split; [apply report_gates_build|].
  split; [by eapply check_each_names|done].
Qed.

(** C4, as the code has it. In every run that writes its report: when
    standard output takes every line of the summary, [main] returns 0 if
    the report's ['passed'] field is true and 1 if it is false; whatever
    [main] returns is the exit status, unless standard output cannot be
    flushed when the interpreter exits, and then the status is 120. When a
    [print] of the summary raises, the exception is what standard output
    answered to a summary line, and the exit status is 1 (120 when the
    flush fails) whatever the report says. *)
Theorem exit_status_follows_overall
    (py : cpython) (a : args) (w w1 : world) (written : list (string * verdict))
    (Hrun : write_report py a w = (Ok written, w1)) :
  exists doc overall,
    report_at (output a) (snd (main py a w)) = Some doc
    /\ report_passed doc = Some overall
    /\ ((forall line, In line (summary_of written) -> stdout_error w line = None) ->
        fst (main py a w) = Ok (if overall then 0 else 1))
    /\ match fst (main py a w) with
       | Ok code =>
           code = (if overall then 0 else 1)
           /\ exit_status py a w = (if stdout_flush_fails w then 120 else code)
       | Raise e =>
           (exists line, In line (summary_of written)
                         /\ stdout_error w line = Some e)
           /\ exit_status py a w = (if stdout_flush_fails w then 120 else 1)
       end.
Proof.
  apply report_written in Hrun
    as (i & p & c & m & w0 & out & _ & _ & Hdoc & Hw & _ & _ & Hf & Hret & Hraise).
  exists (build_result written), (all_passed_of written).
  split; [done|]. split; [apply report_passed_build|].
  assert (Hexit : exit_status py a w =
                  if stdout_flush_fails w then 120
                  else match fst (main py a w) with Ok code => code | Raise _ => 1 end).
  { unfold exit_status. destruct (main py a w) as [r w'].
    simpl in Hw. subst w'. simpl. by rewrite Hf. }
  destruct (fst (main py a w)) as [code|e] eqn:Hr.
  - destruct (Hret code eq_refl) as [_ ->]. by rewrite Hexit.
  - destruct (Hraise e eq_refl) as (line & Hin & El). split.
    + intros Hall. rewrite (Hall line Hin) in El. done.
    + split; [by exists line|done].
Qed.

(** C9. Two runs that loaded identical artifacts, whatever their paths,
    their file systems and their output so far, and that both write their
    report, report identical gate verdicts (names, flags and messages) and
    the same overall flag, and return the same value when both return. *)
Theorem aggregation_deterministic
    (py : cpython) (a1 a2 : args) (w1 w2 l1 l2 v1 v2 : world)
    (data : value * value * value * value) (g1 g2 : list (string * verdict))
    (Hload1 : load_artifacts a1 w1 = (Ok data, l1))
    (Hload2 : load_artifacts a2 w2 = (Ok data, l2))
    (Hrun1 : write_report py a1 w1 = (Ok g1, v1))
    (Hrun2 : write_report py a2 w2 = (Ok g2, v2)) :
  exists doc1 doc2 gates,
    report_at (output a1) (snd (main py a1 w1)) = Some doc1
    /\ report_at (output a2) (snd (main py a2 w2)) = Some doc2
    /\ report_gates doc1 = Some gates
    /\ report_gates doc2 = Some gates
    /\ report_passed doc1 = report_passed doc2
    /\ (forall c1 c2, fst (main py a1 w1) = Ok c1 ->
                      fst (main py a2 w2) = Ok c2 -> c1 = c2).
Proof.
  apply report_written in Hrun1
    as (i & p & c & m & u1 & o1 & L1 & G1 & D1 & _ & _ & _ & _ & R1 & _).
  apply report_written in Hrun2
    as (i' & p' & c' & m' & u2 & o2 & L2 & G2 & D2 & _ & _ & _ & _ & R2 & _).
  rewrite Hload1 in L1. rewrite Hload2 in L2.
  simplify_eq. rewrite G1 in G2. injection G2 as <-.
  exists (build_result g1), (build_result g1), g1.
  split; [done|]. split; [done|].
  split; [apply report_gates_build|]. split; [apply report_gates_build|].
  split; [done|]. intros c1 c2 H1 H2.
  destruct (R1 c1 H1) as [_ ->]. by destruct (R2 c2 H2) as [_ ->].
Qed.

(** C2, as the code has it. [main] has no handler around the evaluators,
    which run in the order integration, performance, chaos, models. The
    exception of the first that raises leaves [main]: no report is written
    and nothing is printed. Only when none raises are the four gates
    evaluated; their verdicts are then written to the report, and printed
    when the summary is. *)
Theorem evaluator_exception_aborts_run
    (py : cpython) (a : args) (w w1 : world) (i p c m : value)
    (Hload : load_artifacts a w = (Ok (i, p, c, m), w1)) :
  (forall e,
     first_raise [check_integration_gate i; check_performance_gate p;
                  check_chaos_gate py c; check_model_gate m] = Some e ->
     main py a w = (Raise e, w1)
     /\ files w1 = files w /\ stdout w1 = stdout w)
  /\ (first_raise [check_integration_gate i; check_performance_gate p;
                   check_chaos_gate py c; check_model_gate m] = None ->
      exists gi gp gc gm,
        check_integration_gate i = Ok gi
        /\ check_performance_gate p = Ok gp
        /\ check_chaos_gate py c = Ok gc
        /\ check_model_gate m = Ok gm
        /\ let gates := [("integration", gi); ("performance", gp);
                         ("chaos", gc); ("models", gm)] in
           (unwritable w1 !! output a = None ->
            report_at (output a) (snd (main py a w)) = Some (build_result gates)
            /\ report_gates (build_result gates) = Some gates
            /\ (forall code, fst (main py a w) = Ok code ->
                  stdout (snd (main py a w)) = (stdout w ++ summary_of gates)%list))).
Proof.
  pose proof (load_artifacts_frame a w) as (Hf & _ & Ho & _).
  rewrite Hload in Hf, Ho. simpl in Hf, Ho.
  pose proof (check_each_outcome py i p c m) as Hout.
  split.
  - intros e He. rewrite He in Hout.
    by rewrite main_split, write_report_run, Hload, Hout.
  - intros Hnone. rewrite Hnone in Hout.
    destruct Hout as (gi & gp & gc & gm & Hi & Hp & Hc & Hm & Hg).
    exists gi, gp, gc, gm. repeat (split; [done|]).
    intros gates Hw.
    assert (Hrun : write_report py a w
                   = (Ok gates,
                      set_files (<[output a := Parses (build_result gates)]> (files w1)) w1))
      by (by rewrite write_report_run, Hload, Hg, Hw).
    apply report_written in Hrun
      as (_ & _ & _ & _ & _ & out & _ & _ & Hdoc & Hw' & _ & _ & _ & Hret & _).
    split; [done|]. split; [apply report_gates_build|].
    intros code Hcode. destruct (Hret code Hcode) as [-> _].
    rewrite Hw'. simpl. by rewrite Ho.
Qed.

(** C1, as the code has it. Every report a run writes carries the
    placeholder ["{}"] in its ['timestamp'] field, which is not an
    ISO 8601 timestamp. *)
Theorem report_timestamp_is_placeholder
    (py : cpython) (a : args) (w w1 : world) (written : list (string * verdict))
    (Hrun : write_report py a w = (Ok written, w1)) :
  exists doc,
    report_at (output a) (snd (main py a w)) = Some doc
    /\ report_timestamp doc = Some "{}"
    /\ is_iso8601_utc "{}" = false.
Proof.
  apply report_written in Hrun as (i & p & c & m & w0 & out & _ & _ & Hdoc & _).
  exists (build_result written). repeat split; done.
Qed.

End Aggregator.

(** ** The gate evaluators *)

Section GateThresholds.

(** C5. A present integration artifact whose summary has [total == 0]
    (the int 0, a float zero, [False], or no ['total'] at all) fails with
    "No integration tests run" whatever ['passed'] and ['failed'] hold, and
    [check_integration_gate] raises [ZeroDivisionError] on no input at
    all. *)
Theorem integration_no_tests_before_division
    (d s : list (string * value))
    (Hsummary : from_option id (VDict []) (dict_lookup "summary" d) = VDict s)
    (Htotal : py_eq_num (from_option id (VInt 0) (dict_lookup "total" s)) (NInt 0) = true) :
  check_integration_gate (VDict d) = Ok (false, "No integration tests run")
  /\ (forall v : value, check_integration_gate v <> Raise Exn.ZeroDivisionError).
Proof.
  split; [|apply check_integration_gate_not_zero_division].
  unfold check_integration_gate. simpl.
  rewrite Hsummary. simpl. by rewrite Htotal.
Qed.

Lemma integration_no_tests_before_division_witness :
  check_integration_gate (integration_of (VInt 0) (VStr "n/a"))
  = Ok (false, "No integration tests run").
Proof.
  exact (proj1 (integration_no_tests_before_division
                  [("summary", VDict [("total", VInt 0); ("passed", VStr "n/a");
                                      ("failed", VInt 0)])]
                  [("total", VInt 0); ("passed", VStr "n/a"); ("failed", VInt 0)]
                  eq_refl eq_refl)).
Defined.

Lemma num_le_not_gt (n k : number) :
  num_compare n k <> None -> negb (num_gt n k) = num_le n k.
Proof.
  unfold num_gt, num_le. by destruct (num_compare n k) as [[]|].
Qed.

Lemma num_compare_int_defined (n : number) (k : Z) :
  n <> NFloat S754_nan -> num_compare n (NInt k) <> None.
Proof.
  intros Hn. unfold num_compare.
  destruct n as [b|z|[s|s| |s m e]]; simpl; done.
Qed.

(** C6, as the code has it. An absent performance artifact passes with a
    message that mentions "optional". A present artifact whose
    [latency.p95] is a number (0 when missing) fails exactly when
    [p95 > 1000]: 1000 passes, 1001 fails, every [p95 <= 1000] passes, and
    so does a NaN, which is neither above nor at most 1000. *)
Theorem performance_gate_threshold
    (d lat : list (string * value)) (p95 : number)
    (Hlatency : from_option id (VDict []) (dict_lookup "latency" d) = VDict lat)
    (Hp95 : as_number (from_option id (VInt 0) (dict_lookup "p95" lat)) = Ok p95) :
  (exists msg, check_performance_gate VNone = Ok (true, msg)
               /\ mentions "optional" msg = true)
  /\ (exists msg, check_performance_gate (VDict d)
                  = Ok (negb (num_gt p95 (NInt 1000)), msg))
  /\ (p95 <> NFloat S754_nan ->
      negb (num_gt p95 (NInt 1000)) = num_le p95 (NInt 1000))
  /\ (p95 = NFloat S754_nan ->
      negb (num_gt p95 (NInt 1000)) = true /\ num_le p95 (NInt 1000) = false)
  /\ negb (num_gt (NInt 1000) (NInt 1000)) = true
  /\ negb (num_gt (NInt 1001) (NInt 1000)) = false.
Proof.
  split; [by eexists|]. split.
  - unfold check_performance_gate. simpl. rewrite Hlatency. simpl.
    rewrite Hp95. simpl. destruct (num_gt p95 (NInt 1000)); by eexists.
  - split; [intros Hn; by apply num_le_not_gt, num_compare_int_defined|].
    split; [by intros ->|done].
Qed.

Lemma performance_gate_threshold_witness :
  exists msg, check_performance_gate (perf_of (VInt 1001)) = Ok (false, msg).
Proof.
  exact (proj1 (proj2 (performance_gate_threshold
                         [("latency", VDict [("p50", VInt 10); ("p95", VInt 1001)])]
                         [("p50", VInt 10); ("p95", VInt 1001)]
                         (NInt 1001) eq_refl eq_refl))).
Defined.

(** C6 as stated fails at a NaN [p95]: the gate passes although
    [p95 <= 1000] is false. *)
Lemma performance_gate_nan_passes :
  check_performance_gate (perf_of (VFloat S754_nan))
  = Ok (true, "Performance metrics acceptable (P95: nanms)")
  /\ num_le (NFloat S754_nan) (NInt 1000) = false.
Proof. split; reflexivity. Qed.

End GateThresholds.

Section ChaosGate.

(** The plain sum adds as the operator [+] does, wherever [+] returns. *)
Lemma plain_add_num_add (a b r : number) :
  num_add a b = Ok r -> plain_add a b = r.
Proof.
  assert (Hd : forall n f, to_float n = Ok f -> as_double n = f).
  { intros [k|k|g] f; simpl; unfold float_of_int;
      try (destruct (binary_normalize _ _ _ _ _); intros [= <-]; done).
    by intros [= <-]. }
  unfold num_add, plain_add.
  destruct (int_of a) as [x|] eqn:Ea; [destruct (int_of b) as [y|] eqn:Eb|].
  - by intros [= <-].
  - unfold mbind, result_bind.
    destruct (to_float a) as [fa|] eqn:Fa; [|done].
    destruct (to_float b) as [fb|] eqn:Fb; [|done].
    intros [= <-]. by rewrite (Hd a fa Fa), (Hd b fb Fb).
  - unfold mbind, result_bind.
    destruct (to_float a) as [fa|] eqn:Fa; [|done].
    destruct (to_float b) as [fb|] eqn:Fb; [|done].
    intros [= <-]. by rewrite (Hd a fa Fa), (Hd b fb Fb).
Qed.

(** The items of a sum of int recovery times: all of them come through,
    and their exact total is the sum of the times. *)
Lemma sum_items_int_times (events : list value) (ts : list Z) (acc : Z) :
  int_recovery_times events = Some ts ->
  exists ns,
    sum_items (Some acc)
              (map (fun e => py_get e "recovery_time_ms" (VInt 0)) events)
    = Ok ns
    /\ int_total ns = Some (Zsum ts).
Proof.
  revert ts acc. induction events as [|e events IH]; intros ts acc.
  - intros [= <-]. by exists [].
  - simpl. destruct (int_recovery_time e) as [t|] eqn:Et; [|done].
    destruct (int_recovery_times events) as [ts'|]; [|done].
    intros [= <-].
    unfold int_recovery_time in Et. destruct e as [| | | | | |d]; try done.
    simpl. unfold mbind, result_bind.
    destruct (from_option id (VInt 0) (dict_lookup "recovery_time_ms" d))
      as [|b|n| | | |]; try done; injection Et as <-; simpl.
    + destruct (IH ts' (acc + Z.b2z b) eq_refl) as (ns & -> & Hns).
      exists (NBool b :: ns). split; [done|]. simpl. by rewrite Hns.
    + destruct (IH ts' (acc + n) eq_refl) as (ns & -> & Hns).
      exists (NInt n :: ns). split; [done|]. simpl. by rewrite Hns.
Qed.

(** On every interpreter the sum of int recovery times is their exact
    sum. *)
Lemma py_sum_int_times (py : cpython) (events : list value) (ts : list Z) :
  int_recovery_times events = Some ts ->
  py_sum py (map (fun e => py_get e "recovery_time_ms" (VInt 0)) events)
  = Ok (NInt (Zsum ts)).
Proof.
  intros Hts. unfold py_sum.
  destruct (sum_items_int_times events ts 0 Hts) as (ns & -> & Hns).
  simpl. by rewrite Hns.
Qed.

Lemma int_recovery_times_length (events : list value) (ts : list Z) :
  int_recovery_times events = Some ts -> length ts = length events.
Proof.
  revert ts. induction events as [|e events IH]; intros ts.
  - by intros [= <-].
  - simpl. destruct (int_recovery_time e); [|done].
    destruct (int_recovery_times events) as [ts'|]; [|done].
    intros [= <-]. simpl. by rewrite (IH ts').
Qed.

(** The mean of integer recovery times is the exact sum divided by the
    count, rounded once to the nearest double. *)
Lemma avg_recovery_of_int_times (py : cpython) (events : list value) (ts : list Z) :
  int_recovery_times events = Some ts ->
  avg_recovery_of py (VList events)
  = NFloat <$> int_true_divide (Zsum ts) (Z.of_nat (length ts)).
Proof.
  intros Hts. unfold avg_recovery_of. simpl.
  rewrite (py_sum_int_times py events ts Hts). simpl.
  by rewrite (int_recovery_times_length events ts Hts).
Qed.

(** The gate on a non-empty list, given the mean. *)
Lemma check_chaos_gate_of_mean
    (py : cpython) (d : list (string * value)) (events : list value) :
  dict_lookup "healing_events" d = Some (VList events) ->
  events <> [] ->
  match avg_recovery_of py (VList events) with
  | Ok mean =>
      exists msg, check_chaos_gate py (VDict d)
                  = Ok (negb (num_gt mean (NInt 5000)), msg)
  | Raise e => check_chaos_gate py (VDict d) = Raise e
  end.
Proof.
  intros Hevents Hne. unfold check_chaos_gate. simpl. rewrite Hevents. simpl.
  destruct events as [|e events]; [done|].
  replace (Z.of_nat (length (e :: events)) =? 0) with false
    by (symmetry; apply Z.eqb_neq; simpl length; lia).
  destruct (avg_recovery_of py (VList (e :: events))) as [mean|err] eqn:Hmean;
    [|done].
  simpl.
  assert (Hf : exists f, mean = NFloat f).
  { unfold avg_recovery_of in Hmean. unfold mbind, result_bind in Hmean.
    simpl py_iter in Hmean. cbv iota beta in Hmean.
    destruct (py_sum _ _) as [total|]; [|done].
    simpl py_len in Hmean. cbv iota beta in Hmean.
    by eapply num_truediv_float. }
  destruct Hf as [f ->].
  destruct (num_gt (NFloat f) (NInt 5000)); by eexists.
Qed.

(** C7, as the code has it. A present chaos artifact with an empty
    ['healing_events'] list passes with "No healing events (system
    stable)", which is not the message of an absent artifact. With a
    non-empty list of events whose recovery times are ints (a missing time
    counts as 0), on every interpreter, the gate returns a verdict and
    fails exactly when the sum of the times is above 5000 times their
    count, that is when their exact mean is above 5000 (for sums below
    2^53 in size and fewer than 2^41 events). In general the gate compares
    the float that [sum(...) / len(...)] gives on the interpreter at hand,
    and gives no verdict when computing it raises. *)
Theorem chaos_gate_mean_threshold
    (py : cpython) (d : list (string * value)) (events : list value)
    (Hevents : dict_lookup "healing_events" d = Some (VList events)) :
  (events = [] ->
   check_chaos_gate py (VDict d) = Ok (true, "No healing events (system stable)"))
  /\ mentions "stable" "No healing events (system stable)" = true
  /\ check_chaos_gate py VNone = Ok (true, "Chaos test data not available (optional)")
  /\ (forall ts,
        events <> [] ->
        int_recovery_times events = Some ts ->
        - 2 ^ 53 < Zsum ts < 2 ^ 53 ->
        Z.of_nat (length ts) < 2 ^ 41 ->
        exists msg,
          check_chaos_gate py (VDict d)
          = Ok (negb (5000 * Z.of_nat (length ts) <? Zsum ts), msg))
  /\ (events <> [] ->
      match avg_recovery_of py (VList events) with
      | Ok mean =>
          exists msg, check_chaos_gate py (VDict d)
                      = Ok (negb (num_gt mean (NInt 5000)), msg)
      | Raise e => check_chaos_gate py (VDict d) = Raise e
      end).
Proof.
  split.
  { intros ->. unfold check_chaos_gate. simpl. by rewrite Hevents. }
  split; [done|]. split; [done|].
  split; [|by apply check_chaos_gate_of_mean].
  intros ts Hne Hts Hsum Hlen.
  pose proof (check_chaos_gate_of_mean py d events Hevents Hne) as Hgate.
  rewrite (avg_recovery_of_int_times py events ts Hts) in Hgate.
  assert (Hpos : 0 < Z.of_nat (length ts)).
  { rewrite (int_recovery_times_length events ts Hts).
    destruct events; [done|]. simpl length. lia. }
  destruct (int_true_divide_above_5000 (Zsum ts) (Z.of_nat (length ts))
              Hsum (conj Hpos Hlen)) as (f & Hdiv & Hgt).
  rewrite Hdiv in Hgate. simpl in Hgate. by rewrite Hgt in Hgate.
Qed.

Lemma chaos_gate_mean_threshold_witness :
  exists msg,
    check_chaos_gate cpython_compensated (chaos_of [4000; 6002]) = Ok (false, msg).
Proof.
  pose proof (chaos_gate_mean_threshold cpython_compensated
                [("healing_events",
                  VList [VDict [("recovery_time_ms", VInt 4000)];
                         VDict [("recovery_time_ms", VInt 6002)]])]
                [VDict [("recovery_time_ms", VInt 4000)];
                 VDict [("recovery_time_ms", VInt 6002)]]
                eq_refl) as (_ & _ & _ & H & _).
  exact (H [4000; 6002] ltac:(discriminate) eq_refl
           ltac:(vm_compute; split; reflexivity) ltac:(vm_compute; reflexivity)).
Defined.

(** C7 as stated fails in two ways. The recovery times 5000.000000000001
    (the double 5000 + 2^-40) and 5000 have a mean above 5000, yet their
    sum rounds to 10000.0, the computed mean is 5000.0 and the gate passes,
    on both interpreters. And for the one recovery time 10^400, far above
    5000, the division overflows and the gate raises [OverflowError]
    instead of failing. *)
Lemma chaos_gate_mean_above_passes :
  let events :=
    VDict [("healing_events",
            VList [VDict [("recovery_time_ms",
                           VFloat (S754_finite false 5497558138880001 (-40)))];
                   VDict [("recovery_time_ms", VInt 5000)]])] in
  num_gt (NFloat (S754_finite false 5497558138880001 (-40))) (NInt 5000) = true
  /\ check_chaos_gate cpython_plain events
     = Ok (true, "Chaos tests passed: 2 healing events, avg recovery: 5000ms")
  /\ check_chaos_gate cpython_compensated events
     = Ok (true, "Chaos tests passed: 2 healing events, avg recovery: 5000ms")
  /\ check_chaos_gate cpython_plain chaos_huge = Raise Exn.OverflowError
  /\ check_chaos_gate cpython_compensated chaos_huge = Raise Exn.OverflowError.
Proof. vm_compute. repeat split; reflexivity. Qed.

End ChaosGate.

Section ModelGate.

(** C10. A present model artifact, a dict, without an ['accuracy'] key
    fails: the field defaults to 0, which is below 0.9; an absent artifact
    passes as optional. *)
Theorem model_gate_missing_accuracy
    (d : list (string * value))
    (Hmissing : dict_lookup "accuracy" d = None) :
  check_model_gate (VDict d)
  = Ok (false, "Model accuracy too low: 0.0% (required: 90%)")
  /\ num_lt (NInt 0) (NFloat float_0_9) = true
  /\ check_model_gate VNone
     = Ok (true, "Model validation data not available (optional)").
Proof.
  split; [|done]. unfold check_model_gate. simpl. by rewrite Hmissing.
Qed.

Lemma model_gate_missing_accuracy_witness :
  check_model_gate (VDict [("precision", VFloat float_0_9)])
  = Ok (false, "Model accuracy too low: 0.0% (required: 90%)").
Proof.
  exact (proj1 (model_gate_missing_accuracy
                  [("precision", VFloat float_0_9)] eq_refl)).
Defined.

End ModelGate.

(** ** Concrete runs *)

Section Runs.

Lemma overall_passed_is_conjunction_witness :
  exists doc overall gates,
    report_at "gates.json"
              (snd (main cpython_compensated args_integration world_passing))
    = Some doc
    /\ report_passed doc = Some overall
    /\ report_gates doc = Some gates
    /\ map fst gates = ["integration"; "performance"; "chaos"; "models"]
    /\ overall = forallb (fun g => fst (snd g)) gates.
Proof.
  eapply (overall_passed_is_conjunction cpython_compensated
            args_integration world_passing).
  vm_compute. reflexivity.
Defined.

Lemma exit_status_follows_overall_witness :
  exists doc overall,
    report_at "gates.json"
              (snd (main cpython_compensated args_only_output (world_of [])))
    = Some doc
    /\ report_passed doc = Some overall
    /\ ((forall line,
           In line (summary_of
                      [("integration", (false, "Integration test results not found"));
                       ("performance", (true, "Performance data not available (optional)"));
                       ("chaos", (true, "Chaos test data not available (optional)"));
                       ("models", (true, "Model validation data not available (optional)"))]) ->
           stdout_error (world_of []) line = None) ->
        fst (main cpython_compensated args_only_output (world_of []))
        = Ok (if overall then 0 else 1))
    /\ match fst (main cpython_compensated args_only_output (world_of [])) with
       | Ok code =>
           code = (if overall then 0 else 1)
           /\ exit_status cpython_compensated args_only_output (world_of [])
              = (if stdout_flush_fails (world_of []) then 120 else code)
       | Raise e =>
           (exists line,
              In line (summary_of
                         [("integration", (false, "Integration test results not found"));
                          ("performance", (true, "Performance data not available (optional)"));
                          ("chaos", (true, "Chaos test data not available (optional)"));
                          ("models", (true, "Model validation data not available (optional)"))])
              /\ stdout_error (world_of []) line = Some e)
           /\ exit_status cpython_compensated args_only_output (world_of [])
              = (if stdout_flush_fails (world_of []) then 120 else 1)
       end.
Proof.
  eapply (exit_status_follows_overall cpython_compensated
            args_only_output (world_of [])).
  vm_compute. reflexivity.
Defined.

(** C4 as stated fails on a standard output that encodes ASCII only: the
    report is written and says passed, then the third line of the summary,
    the first with a mark, raises [UnicodeEncodeError], and the exit status
    is 1. It fails also when the output cannot be flushed at exit: [main]
    returns 0 and the exit status is 120. *)
Lemma exit_status_not_from_report :
  (report_at "gates.json"
             (snd (main cpython_compensated args_integration
                        (on_ascii_stdout world_passing)))
   ≫= report_passed) = Some true
  /\ main cpython_compensated args_integration (on_ascii_stdout world_passing)
     = (Raise Exn.UnicodeEncodeError,
        add_stdout ["Release Gate Check Results:"; str_repeat "=" 50]
          (snd (write_report cpython_compensated args_integration
                             (on_ascii_stdout world_passing))))
  /\ exit_status cpython_compensated args_integration
                 (on_ascii_stdout world_passing) = 1
  /\ (report_at "gates.json"
                (snd (main cpython_compensated args_integration
                           (on_full_device world_passing)))
      ≫= report_passed) = Some true
  /\ fst (main cpython_compensated args_integration (on_full_device world_passing))
     = Ok 0
  /\ exit_status cpython_compensated args_integration
                 (on_full_device world_passing) = 120.
Proof. vm_compute. repeat split; reflexivity. Qed.

Lemma aggregation_deterministic_witness :
  exists doc1 doc2 gates,
    report_at "gates.json"
              (snd (main cpython_compensated args_integration world_passing))
    = Some doc1
    /\ report_at "out/report.json"
                 (snd (main cpython_compensated args_other world_other))
       = Some doc2
    /\ report_gates doc1 = Some gates
    /\ report_gates doc2 = Some gates
    /\ report_passed doc1 = report_passed doc2
    /\ (forall c1 c2,
          fst (main cpython_compensated args_integration world_passing) = Ok c1 ->
          fst (main cpython_compensated args_other world_other) = Ok c2 ->
          c1 = c2).
Proof.
  eapply (aggregation_deterministic cpython_compensated
            args_integration args_other world_passing world_other
            (snd (load_artifacts args_integration world_passing))
            (snd (load_artifacts args_other world_other))
            _ _
            (integration_of (VInt 100) (VInt 80), VNone, VNone, VNone));
    vm_compute; reflexivity.
Defined.

Lemma report_timestamp_is_placeholder_witness :
  exists doc,
    report_at "gates.json"
              (snd (main cpython_compensated args_only_output (world_of [])))
    = Some doc
    /\ report_timestamp doc = Some "{}"
    /\ is_iso8601_utc "{}" = false.
Proof.
  eapply (report_timestamp_is_placeholder cpython_compensated
            args_only_output (world_of [])).
  vm_compute. reflexivity.
Defined.

(** C2 as stated fails when the integration artifact is [{"summary": 5}]:
    its evaluator raises [AttributeError], the three others would have
    passed, and [main] ends with that exception, the world untouched: no
    report, no summary. *)
Lemma evaluator_exception_not_isolated :
  check_integration_gate integration_odd = Raise Exn.AttributeError
  /\ raises (check_performance_gate VNone) = false
  /\ raises (check_chaos_gate cpython_compensated VNone) = false
  /\ raises (check_model_gate VNone) = false
  /\ main cpython_compensated args_integration world_odd
     = (Raise Exn.AttributeError, world_odd)
  /\ report_at "gates.json"
               (snd (main cpython_compensated args_integration world_odd)) = None
  /\ stdout (snd (main cpython_compensated args_integration world_odd)) = []
  /\ exit_status cpython_compensated args_integration world_odd = 1.
Proof. vm_compute. repeat split; reflexivity. Qed.

(** Two evaluators that raise: the integration artifact [{"summary": 5}]
    ([AttributeError]) and the performance artifact with the p95 "fast"
    ([TypeError]). The exception of the run is that of the integration
    gate, the first in order. *)
Lemma evaluator_exception_aborts_run_witness :
  check_performance_gate perf_odd = Raise Exn.TypeError
  /\ main cpython_compensated args_integration_perf world_two_odd
     = (Raise Exn.AttributeError, world_two_odd)
  /\ files world_two_odd = files world_two_odd
  /\ stdout world_two_odd = stdout world_two_odd.
Proof.
  split; [vm_compute; reflexivity|].
  pose proof (evaluator_exception_aborts_run cpython_compensated
                args_integration_perf world_two_odd world_two_odd
                integration_odd perf_odd VNone VNone
                ltac:(vm_compute; reflexivity)) as (H & _).
  exact (H Exn.AttributeError ltac:(vm_compute; reflexivity)).
Defined.

(** C8, as the code has it. The handler of [load_json_file] names
    [json.JSONDecodeError] and [IOError] only. A file that is not JSON is
    answered with [None] and a warning; a file that is not UTF-8 raises
    [UnicodeDecodeError], which neither class covers, so the exception
    leaves [load_json_file] and ends [main]. *)
Theorem loader_lets_decoding_error_escape (py : cpython) :
  Exn.caught_by [Exn.JSONDecodeError; Exn.OSError] Exn.UnicodeDecodeError = false
  /\ load_json_file "integration.json" world_not_utf8
     = (Raise Exn.UnicodeDecodeError, world_not_utf8)
  /\ main py args_integration world_not_utf8
     = (Raise Exn.UnicodeDecodeError, world_not_utf8)
  /\ exit_status py args_integration world_not_utf8 = 1
  /\ fst (load_json_file "integration.json" world_not_json) = Ok VNone
  /\ stderr (snd (load_json_file "integration.json" world_not_json))
     = ["Warning: Failed to load integration.json: Expecting value: line 1 column 1 (char 0)"].
Proof. vm_compute. repeat split; reflexivity. Qed.

End Runs.
